(** * pre-commit-hook-ensure-sops: the validator of [__main__.py]

    A shallow embedding of [validate_enc], [check_file] and [main], with the
    part of Python they rely on: the values the JSON and YAML loaders build,
    the [str] methods used ([startswith], [endswith], [strip], [split],
    [join]), membership, subscription and iteration on a dynamically typed
    value, and exceptions.

    Conventions.  A [str] is a [string] of the Standard Library and a
    character one [ascii].  A call either returns a value or raises an
    exception: [result].  The file system and the two loaders, which the
    program only calls, are the fields of an environment [World].  The
    interpreter's limit on the depth of recursion is not modelled. *)

From Stdlib Require Import String Ascii List Bool ZArith QArith.
Import ListNotations.

Set Warnings "-register-all".

Local Open Scope list_scope.
Local Open Scope string_scope.

(** ** Exceptions and results *)

(** The exception classes that can reach the program.  [ParserError] is
    [ruamel.yaml.parser.ParserError], the only class the source names in an
    [except] clause besides [Exception]; [ScannerError] stands for the other
    errors of the YAML loader, [JSONDecodeError] is the error of [json.load]. *)
Inductive exn : Type :=
| FileNotFoundError
| PermissionError
| UnicodeDecodeError
| JSONDecodeError
| ParserError
| ScannerError
| TypeError
| KeyError
| IndexError
| AttributeError
| SystemExit (code : Z).

Inductive result (A : Type) : Type :=
| Return (a : A)
| Raise (e : exn).

Arguments Return {A} a.
Arguments Raise {A} e.

Definition bind {A B : Type} (m : result A) (k : A -> result B) : result B :=
  match m with
  | Return a => k a
  | Raise e => Raise e
  end.

Notation "x <- m ;; k" := (bind m (fun x => k))
  (at level 61, m at next level, right associativity).

(** ** Python [str] *)

Module Str.

Definition mem (c : ascii) (chars : string) : bool :=
  existsb (Ascii.eqb c) (list_ascii_of_string chars).

(** [s.startswith(p)] *)
Definition startswith (s p : string) : bool := String.prefix p s.

(** [s.endswith(suf)]: some tail of [s] is [suf]. *)
Fixpoint endswith (s suf : string) : bool :=
  String.eqb s suf ||
  match s with
  | EmptyString => false
  | String _ s' => endswith s' suf
  end.

(** [sub in s] for two strings: [sub] starts at some position of [s]. *)
Fixpoint contains (s sub : string) : bool :=
  String.prefix sub s ||
  match s with
  | EmptyString => false
  | String _ s' => contains s' sub
  end.

Fixpoint lstrip (chars s : string) : string :=
  match s with
  | EmptyString => EmptyString
  | String c s' => if mem c chars then lstrip chars s' else s
  end.

Fixpoint rstrip (chars s : string) : string :=
  match s with
  | EmptyString => EmptyString
  | String c s' =>
      match rstrip chars s' with
      | EmptyString => if mem c chars then EmptyString else String c EmptyString
      | r => String c r
      end
  end.

(** [s.strip(chars)]: every leading and every trailing character that
    belongs to [chars] is removed. *)
Definition strip (chars s : string) : string := rstrip chars (lstrip chars s).

(** [s.split(sep)] for a separator of one character. *)
Fixpoint split (sep : ascii) (s : string) : list string :=
  match s with
  | EmptyString => [EmptyString]
  | String c s' =>
      if Ascii.eqb c sep then EmptyString :: split sep s'
      else match split sep s' with
           | h :: t => String c h :: t
           | [] => [String c EmptyString]
           end
  end.

(** The characters of a string, each as a string of length one: what
    iterating over a [str] yields. *)
Fixpoint chars (s : string) : list string :=
  match s with
  | EmptyString => []
  | String c s' => String c EmptyString :: chars s'
  end.

Definition newline : string := String "010"%char EmptyString.

End Str.

(** ** Structured values *)

(** What [json.load] and the safe YAML loader return: [None], [bool], [int],
    [float], [str], [list] and [dict].  A mapping keeps its entries in input
    order; its keys are scalars (always [str] from JSON, any scalar from
    YAML).  A finite float is given by its exact value.  The timestamps,
    binary strings and sets that YAML tags can produce are left out. *)
Inductive scalar : Type :=
| SNone
| SBool (b : bool)
| SInt (n : Z)
| SFloat (q : Q)
| SStr (s : string).

Inductive value : Type :=
| VScalar (a : scalar)
| VList (items : list value)
| VDict (entries : list (scalar * value)).

Definition VStr (s : string) : value := VScalar (SStr s).
Definition VInt (n : Z) : value := VScalar (SInt n).
Definition VBool (b : bool) : value := VScalar (SBool b).
Definition VNone : value := VScalar SNone.

Module Py.

Definition number (a : scalar) : option Q :=
  match a with
  | SBool b => Some (inject_Z (Z.b2z b))
  | SInt n => Some (inject_Z n)
  | SFloat q => Some q
  | SNone | SStr _ => None
  end.

(** [a == b] on scalars: [None] equals itself, strings compare by content,
    [bool], [int] and [float] compare by numeric value. *)
Definition scalar_eqb (a b : scalar) : bool :=
  match a, b with
  | SNone, SNone => true
  | SStr s, SStr t => String.eqb s t
  | _, _ =>
      match number a, number b with
      | Some p, Some q => Qeq_bool p q
      | _, _ => false
      end
  end.

(** [v == s] for a string [s]: only a [str] with the same content. *)
Definition eq_str (v : value) (s : string) : bool :=
  match v with
  | VScalar (SStr t) => String.eqb t s
  | _ => false
  end.

(** Truth value of an object. *)
Definition truthy (v : value) : bool :=
  match v with
  | VScalar SNone => false
  | VScalar (SBool b) => b
  | VScalar (SInt n) => negb (Z.eqb n 0)
  | VScalar (SFloat q) => negb (Qeq_bool q 0)
  | VScalar (SStr s) => negb (String.eqb s "")
  | VList l => match l with [] => false | _ => true end
  | VDict d => match d with [] => false | _ => true end
  end.

(** [l[n]] with Python's negative indices; [None] is [IndexError]. *)
Definition index {A : Type} (l : list A) (n : Z) : option A :=
  let len := Z.of_nat (List.length l) in
  let i := if (n <? 0)%Z then (n + len)%Z else n in
  if ((0 <=? i) && (i <? len))%Z then nth_error l (Z.to_nat i) else None.

Fixpoint lookup (d : list (scalar * value)) (k : scalar) : option value :=
  match d with
  | [] => None
  | (k', v) :: d' => if scalar_eqb k' k then Some v else lookup d' k
  end.

(** An [int] (or [bool], its subclass) usable as a sequence index. *)
Definition as_index (k : value) : option Z :=
  match k with
  | VScalar (SInt n) => Some n
  | VScalar (SBool b) => Some (Z.b2z b)
  | _ => None
  end.

(** [c[k]] *)
Definition getitem (c k : value) : result value :=
  match c with
  | VDict d =>
      match k with
      | VScalar a =>
          match lookup d a with
          | Some v => Return v
          | None => Raise KeyError
          end
      | _ => Raise TypeError
      end
  | VList l =>
      match as_index k with
      | Some n =>
          match index l n with
          | Some v => Return v
          | None => Raise IndexError
          end
      | None => Raise TypeError
      end
  | VScalar (SStr s) =>
      match as_index k with
      | Some n =>
          match index (Str.chars s) n with
          | Some ch => Return (VStr ch)
          | None => Raise IndexError
          end
      | None => Raise TypeError
      end
  | VScalar _ => Raise TypeError
  end.

(** [s in c] for a string [s]: key lookup in a mapping, element comparison
    in a sequence, substring test in a string; the other scalars are not
    containers. *)
Definition contains_str (c : value) (s : string) : result bool :=
  match c with
  | VDict d => Return (existsb (fun kv => scalar_eqb (fst kv) (SStr s)) d)
  | VList l => Return (existsb (fun v => eq_str v s) l)
  | VScalar (SStr t) => Return (Str.contains t s)
  | VScalar _ => Raise TypeError
  end.

(** What [for k in c] binds [k] to, in order. *)
Definition iter (c : value) : result (list value) :=
  match c with
  | VDict d => Return (map (fun kv => VScalar (fst kv)) d)
  | VList l => Return l
  | VScalar (SStr t) => Return (map VStr (Str.chars t))
  | VScalar _ => Raise TypeError
  end.

(** [sep.join(items)]: every item has to be a [str]. *)
Fixpoint strings (items : list value) : result (list string) :=
  match items with
  | [] => Return []
  | VScalar (SStr s) :: rest => ss <- strings rest ;; Return (s :: ss)
  | _ :: _ => Raise TypeError
  end.

Definition join (sep : string) (items : list value) : result string :=
  ss <- strings items ;; Return (String.concat sep ss).

(** [v.strip(chars)]: a method of [str] only. *)
Definition strip (v : value) (chars : string) : result string :=
  match v with
  | VScalar (SStr s) => Return (Str.strip chars s)
  | _ => Raise AttributeError
  end.

End Py.

(** ** [validate_enc] *)

(** The function returns [True] for an accepted string, falls off its end
    ([None]) for any other string, the result of [all] for a list or the
    values of a dict, and [False] otherwise. *)
Fixpoint validate_enc (item : value) : value :=
  match item with
  | VScalar (SStr s) =>
      if String.eqb s "" || Str.startswith s "ENC[" then VBool true else VNone
  | VList l => VBool (forallb (fun i => Py.truthy (validate_enc i)) l)
  | VDict d => VBool (forallb (fun kv => Py.truthy (validate_enc (snd kv))) d)
  | VScalar _ => VBool false
  end.

(** ** The environment of a run *)

(** The file system and the two loaders.  [read_text path] is what opening
    [path] as UTF-8 text and reading it gives: the text, or the exception of
    [open] or of the decoding.  [json_load] is [json.load] and [yaml_load] is
    [YAML(typ="safe").load], on a text. *)
Record World : Type := {
  read_text : string -> result string;
  json_load : string -> result value;
  yaml_load : string -> result value
}.

(** ** [check_file] *)

Definition sops_config : string := ".sops.yaml".

(** [(config["creation_rules"][0]["encrypted_regex"]).strip("'$^()").split("|")] *)
Definition encrypted_regex_of (config : value) : result (list string) :=
  rules <- Py.getitem config (VStr "creation_rules") ;;
  rule <- Py.getitem rules (VInt 0) ;;
  regex <- Py.getitem rule (VStr "encrypted_regex") ;;
  stripped <- Py.strip regex "'$^()" ;;
  Return (Str.split "|"%char stripped).

(** How the block that reads [.sops.yaml] ends: with the [return] of its
    inner handler, or with a value of [encrypted_regex] that is still [[]]
    when [except Exception: pass] caught something. *)
Inductive config_exit : Type :=
| NotReadable
| Filter (encrypted_regex : list string).

Definition load_encrypted_regex (w : World) : config_exit :=
  match read_text w sops_config with
  | Raise _ => Filter []
  | Return sc =>
      match yaml_load w sc with
      | Raise ParserError => NotReadable
      | Raise _ => Filter []
      | Return config =>
          match encrypted_regex_of config with
          | Return encrypted_regex => Filter encrypted_regex
          | Raise _ => Filter []
          end
      end
  end.

Definition is_empty {A : Type} (l : list A) : bool :=
  match l with
  | [] => true
  | _ :: _ => false
  end.

(** [k != "sops" and (k in encrypted_regex or not encrypted_regex)] *)
Definition selected (encrypted_regex : list string) (k : value) : bool :=
  negb (Py.eq_str k "sops") &&
  (existsb (Py.eq_str k) encrypted_regex || is_empty encrypted_regex).

(** The loop over [doc], [ks] being what is left to iterate. *)
Fixpoint scan (doc : value) (encrypted_regex : list string)
    (ks : list value) (invalid_keys : list value) : result (list value) :=
  match ks with
  | [] => Return invalid_keys
  | k :: ks' =>
      if selected encrypted_regex k then
        item <- Py.getitem doc k ;;
        if negb (Py.truthy (validate_enc item))
        then scan doc encrypted_regex ks' (invalid_keys ++ [k])%list
        else scan doc encrypted_regex ks' invalid_keys
      else scan doc encrypted_regex ks' invalid_keys
  end.

Definition verdict : Type := (bool * string)%type.

Definition not_parsable (filename : string) : verdict :=
  (false, filename ++ ": Not valid JSON or YAML, is not properly encrypted").

Definition no_metadata (filename : string) : verdict :=
  (false, filename ++ ": sops metadata key not found in file, is not properly encrypted").

Definition config_not_readable : verdict :=
  (false, sops_config ++ " is not readable").

Definition unencrypted (filename keys : string) : verdict :=
  (false, filename ++ ": Unencrypted values found nested under keys: " ++ keys).

Definition valid_encryption (filename : string) : verdict :=
  (true, filename ++ ": Valid encryption").

(** The part of [check_file] after the metadata-key test: the configuration
    block, the loop and the verdict. *)
Definition check_keys (w : World) (filename : string) (doc : value) : result verdict :=
  match load_encrypted_regex w with
  | NotReadable => Return config_not_readable
  | Filter encrypted_regex =>
      ks <- Py.iter doc ;;
      invalid_keys <- scan doc encrypted_regex ks [] ;;
      if negb (is_empty invalid_keys) then
        keys <- Py.join "," invalid_keys ;;
        Return (unencrypted filename keys)
      else Return (valid_encryption filename)
  end.

(** The part of [check_file] after the document is loaded. *)
Definition check_doc (w : World) (filename : string) (doc : value) : result verdict :=
  found <- Py.contains_str doc "sops" ;;
  if negb found then Return (no_metadata filename)
  else check_keys w filename doc.

Definition loader_func (w : World) (filename : string) : string -> result value :=
  if Str.endswith filename ".yaml" then yaml_load w else json_load w.

Definition check_file (w : World) (filename : string) : result verdict :=
  f <- read_text w filename ;;
  match loader_func w filename f with
  | Raise ParserError => Return (not_parsable filename)
  | Raise e => Raise e
  | Return doc => check_doc w filename doc
  end.

(** ** [main] *)

(** The loop of [main] over [args.filenames]. *)
Fixpoint check_all (w : World) (filenames : list string)
    (failed_messages : list string) : result (list string) :=
  match filenames with
  | [] => Return failed_messages
  | f :: rest =>
      v <- check_file w f ;;
      let '(is_valid, message) := v in
      if negb is_valid
      then check_all w rest (failed_messages ++ [message])%list
      else check_all w rest failed_messages
  end.

(** [main], from the list [args.filenames] on: the text printed on standard
    output and the returned code.  The argument parser ([nargs="+"]) exits
    with status 2 when no file name is given. *)
Definition main (w : World) (filenames : list string) : result (string * Z) :=
  match filenames with
  | [] => Raise (SystemExit 2)
  | _ :: _ =>
      failed_messages <- check_all w filenames [] ;;
      if negb (is_empty failed_messages)
      then Return (String.concat Str.newline failed_messages ++ Str.newline, 1%Z)
      else Return ("", 0%Z)
  end.

(** [sys.exit(main())]: the status of the process.  An exception that
    nothing catches ends the interpreter with status 1. *)
Definition exit_status (r : result (string * Z)) : Z :=
  match r with
  | Return (_, code) => code
  | Raise (SystemExit code) => code
  | Raise _ => 1%Z
  end.

(** ** Words of the specification *)

(** The leaf rule as the specification states it: a string that is empty or
    begins with the ciphertext marker, a sequence of accepted values, or a
    mapping whose values are all accepted. *)
Inductive encrypted : value -> Prop :=
| enc_str (s : string) :
    s = "" \/ (exists rest, s = "ENC[" ++ rest) -> encrypted (VScalar (SStr s))
| enc_list (l : list value) :
    Forall encrypted l -> encrypted (VList l)
| enc_dict (d : list (scalar * value)) :
    Forall (fun kv => encrypted (snd kv)) d -> encrypted (VDict d).

(** A key pattern read as a regular expression, for the patterns made of
    literal characters and the wildcard [.] only: the whole key has to match. *)
Fixpoint regex_fullmatch (pattern key : string) : bool :=
  match pattern, key with
  | EmptyString, EmptyString => true
  | String p pattern', String c key' =>
      (Ascii.eqb p "."%char || Ascii.eqb p c) && regex_fullmatch pattern' key'
  | _, _ => false
  end.

(** The top-level keys that are selected and whose value the leaf rule
    rejects, in the order of the document. *)
Definition failing (d : list (scalar * value)) (encrypted_regex : list string)
    (k : scalar) : bool :=
  selected encrypted_regex (VScalar k) &&
  match Py.lookup d k with
  | Some v => negb (Py.truthy (validate_enc v))
  | None => false
  end.

Definition failing_keys (d : list (scalar * value)) (encrypted_regex : list string)
    : list scalar :=
  filter (failing d encrypted_regex) (map fst d).

(** No two entries of the mapping have equal keys, as in every [dict]. *)
Fixpoint distinct_keys (d : list (scalar * value)) : bool :=
  match d with
  | [] => true
  | (k, _) :: d' =>
      negb (existsb (fun kv => Py.scalar_eqb k (fst kv)) d') && distinct_keys d'
  end.

(** The entries whose key is selected and whose own value the leaf rule
    rejects. *)
Definition failing_entry (encrypted_regex : list string) (kv : scalar * value) : bool :=
  selected encrypted_regex (VScalar (fst kv)) && negb (Py.truthy (validate_enc (snd kv))).

(** What a filter with the given patterns makes of an entry, read on the
    entry alone: the name of its key when the key is a string other than
    ["sops"], equal to one of the patterns, and the leaf check rejects the
    value stored next to it. *)
Definition listed_failure (patterns : list string) (kv : scalar * value) : option string :=
  match fst kv with
  | SStr name =>
      if negb (String.eqb name "sops")
         && existsb (String.eqb name) patterns
         && negb (Py.truthy (validate_enc (snd kv)))
      then Some name
      else None
  | _ => None
  end.

(** These names for the entries of a mapping, in the order of the document. *)
Fixpoint listed_failures (patterns : list string) (d : list (scalar * value))
    : list string :=
  match d with
  | [] => []
  | kv :: d' =>
      match listed_failure patterns kv with
      | Some name => name :: listed_failures patterns d'
      | None => listed_failures patterns d'
      end
  end.

(** The mapping [d] with the value of its key ["sops"] replaced by [v]. *)
Definition with_sops (v : value) (d : list (scalar * value)) : list (scalar * value) :=
  map (fun kv => if Py.scalar_eqb (fst kv) (SStr "sops") then (fst kv, v) else kv) d.

(** The environment [w] with no configuration file. *)
Definition without_config (w : World) : World :=
  {| read_text := fun path =>
       if String.eqb path sops_config then Raise FileNotFoundError
       else read_text w path;
     json_load := json_load w;
     yaml_load := yaml_load w |}.

(** The ways the configuration can fail to give a pattern list, the parser
    error of the YAML loader apart: the file cannot be read, the loader raises
    another error, or the loaded value has not the expected fields or shape. *)
Inductive config_failure (w : World) : Prop :=
| cf_read (e : exn) :
    read_text w sops_config = Raise e -> config_failure w
| cf_load (sc : string) (e : exn) :
    read_text w sops_config = Return sc ->
    yaml_load w sc = Raise e -> e <> ParserError -> config_failure w
| cf_shape (sc : string) (config : value) (e : exn) :
    read_text w sops_config = Return sc ->
    yaml_load w sc = Return config ->
    encrypted_regex_of config = Raise e -> config_failure w.

(** The characters the configuration loader strips, and whether a pattern
    begins or ends with one of them. *)
Definition wrapper_chars : string := "'$^()".

Definition starts_in (chars p : string) : bool :=
  match p with
  | EmptyString => false
  | String c _ => Str.mem c chars
  end.

Fixpoint ends_in (chars p : string) : bool :=
  match p with
  | EmptyString => false
  | String c EmptyString => Str.mem c chars
  | String _ p' => ends_in chars p'
  end.

Definition has_bar (p : string) : bool := Str.mem "|"%char p.

(** Every character of [s] belongs to [chars]. *)
Fixpoint all_in (chars s : string) : bool :=
  match s with
  | EmptyString => true
  | String c s' => Str.mem c chars && all_in chars s'
  end.

(** What a validation of the string [s] character by character would
    reject: the characters that fail the leaf rule. *)
Definition charwise_failures (s : string) : list string :=
  filter (fun c => negb (Py.truthy (validate_enc (VStr c)))) (Str.chars s).

(** The messages [main] collects from a list of verdicts, and what it prints
    for them. *)
Definition failures (verdicts : list verdict) : list string :=
  map snd (filter (fun v => negb (fst v)) verdicts).

Definition printed (messages : list string) : string :=
  match messages with
  | [] => ""
  | _ :: _ => String.concat Str.newline messages ++ Str.newline
  end.

(** ** Scenarios *)

(** JSON text written with apostrophes in the place of double quotes. *)
Fixpoint json (s : string) : string :=
  match s with
  | EmptyString => EmptyString
  | String c s' => String (if Ascii.eqb c "'"%char then "034"%char else c) (json s')
  end.

Fixpoint assoc {A : Type} (table : list (string * A)) (key : string) : option A :=
  match table with
  | [] => None
  | (k, a) :: table' => if String.eqb k key then Some a else assoc table' key
  end.

(** An environment given by tables: the files that exist with their texts,
    and the answer of each loader on the texts of the scenario.  A path that
    is not listed does not exist. *)
Definition scenario (files : list (string * string))
    (json_answers yaml_answers : list (string * result value)) : World :=
  {| read_text := fun path =>
       match assoc files path with
       | Some text => Return text
       | None => Raise FileNotFoundError
       end;
     json_load := fun text =>
       match assoc json_answers text with
       | Some r => r
       | None => Raise JSONDecodeError
       end;
     yaml_load := fun text =>
       match assoc yaml_answers text with
       | Some r => r
       | None => Raise ScannerError
       end |}.

Definition config_value (regex : value) : value :=
  VDict [(SStr "creation_rules", VList [VDict [(SStr "encrypted_regex", regex)]])].

Module Scenario.

(** The documents of the specification's end-to-end scenarios A to D. *)
Definition text_A : string := json "{'sops': {}, 'a': 'ENC[AES256...]'}".
Definition doc_A : value :=
  VDict [(SStr "sops", VDict []); (SStr "a", VStr "ENC[AES256...]")].

Definition text_B : string := json "{'a': 'plaintext'}".
Definition doc_B : value := VDict [(SStr "a", VStr "plaintext")].

Definition text_C : string := json "{'sops': {}, 'a': 'plaintext', 'b': 'ENC[x]'}".
Definition doc_C : value :=
  VDict [(SStr "sops", VDict []); (SStr "a", VStr "plaintext"); (SStr "b", VStr "ENC[x]")].

Definition text_D : string := "{not valid}".

(** A JSON document whose root is a string, and one whose root is a number. *)
Definition text_note : string := json "'sops'".
Definition text_number : string := "42".

(** YAML documents: the one of the key-filter property, the same with the
    metadata key, and one with plaintext under the key [data]. *)
Definition text_narrow : string := "{data: {x: 'ENC[...]'}, other: 12345}".
Definition doc_narrow : value :=
  VDict [(SStr "data", VDict [(SStr "x", VStr "ENC[...]")]); (SStr "other", VInt 12345)].

Definition text_narrow_sops : string := "{sops: {}, data: {x: 'ENC[...]'}, other: 12345}".
Definition doc_narrow_sops : value :=
  VDict [(SStr "sops", VDict []);
         (SStr "data", VDict [(SStr "x", VStr "ENC[...]")]);
         (SStr "other", VInt 12345)].

Definition text_leak : string := "{sops: {}, data: plaintext}".
Definition doc_leak : value :=
  VDict [(SStr "sops", VDict []); (SStr "data", VStr "plaintext")].

(** A YAML document with an integer key. *)
Definition text_ports : string := "{sops: {}, 8080: plaintext}".
Definition doc_ports : value :=
  VDict [(SStr "sops", VDict []); (SInt 8080, VStr "plaintext")].

(** Configuration texts. *)
Definition config_data : string := "creation_rules: [{encrypted_regex: '^(data)$'}]".
Definition config_wildcard : string := "creation_rules: [{encrypted_regex: '^(d.ta)$'}]".
Definition config_group : string := "creation_rules: [{encrypted_regex: '^(a|(b))$'}]".
Definition config_no_rules : string := "creation_rules: []".
(** A flow sequence that is never closed: the YAML parser raises
    [ParserError].  A quoted scalar that is never closed: the scanner
    raises its own error. *)
Definition config_unclosed : string := "creation_rules: [".
Definition config_open_quote : string := "creation_rules: 'abc".

Definition files : list (string * string) :=
  [("a.json", text_A); ("b.json", text_B); ("c.json", text_C); ("d.json", text_D);
   ("note.json", text_note); ("number.json", text_number);
   ("narrow.yaml", text_narrow); ("secrets.yaml", text_narrow_sops);
   ("leak.yaml", text_leak); ("ports.yaml", text_ports)].

(** What [json.load] answers.  It rejects [{not valid}]: a property name has
    to be a string in double quotes. *)
Definition json_answers : list (string * result value) :=
  [(text_A, Return doc_A); (text_B, Return doc_B); (text_C, Return doc_C);
   (text_D, Raise JSONDecodeError);
   (text_note, Return (VStr "sops")); (text_number, Return (VInt 42))].

(** What the safe YAML loader answers. *)
Definition yaml_answers : list (string * result value) :=
  [(text_narrow, Return doc_narrow); (text_narrow_sops, Return doc_narrow_sops);
   (text_leak, Return doc_leak); (text_ports, Return doc_ports);
   (config_data, Return (config_value (VStr "^(data)$")));
   (config_wildcard, Return (config_value (VStr "^(d.ta)$")));
   (config_group, Return (config_value (VStr "^(a|(b))$")));
   (config_no_rules, Return (VDict [(SStr "creation_rules", VList [])]));
   (config_unclosed, Raise ParserError);
   (config_open_quote, Raise ScannerError)].

(** The working directory with these files and, when [config] is given,
    a [.sops.yaml] with that text. *)
Definition repo (config : option string) : World :=
  scenario
    (match config with
     | Some text => (sops_config, text) :: files
     | None => files
     end)
    json_answers yaml_answers.

(** Scenario C again, with plaintext stored under the metadata key. *)
Definition text_C_meta : string :=
  json "{'sops': 'plaintext', 'a': 'plaintext', 'b': 'ENC[x]'}".
Definition doc_C_meta : value :=
  VDict [(SStr "sops", VStr "plaintext"); (SStr "a", VStr "plaintext");
         (SStr "b", VStr "ENC[x]")].

Definition repo_meta : World :=
  scenario [("c.json", text_C_meta)] [(text_C_meta, Return doc_C_meta)] [].

End Scenario.

(** ** Leaves *)

(** The leaves of a value: the scalars reached through the elements of lists
    and the values of mappings.  The keys of a mapping are not leaves. *)
Fixpoint leaves (v : value) : list scalar :=
  match v with
  | VScalar a => [a]
  | VList l => flat_map leaves l
  | VDict d => flat_map (fun kv => leaves (snd kv)) d
  end.

(** A leaf that passes: a string that is empty or starts with [ENC[]. *)
Definition accepted_leaf (a : scalar) : bool :=
  match a with
  | SStr s => String.eqb s "" || Str.startswith s "ENC["
  | _ => false
  end.

(** * Properties *)

(** ** Induction on values *)

Section ValueInduction.

Variable P : value -> Prop.
Hypothesis P_scalar : forall a, P (VScalar a).
Hypothesis P_list : forall l, Forall P l -> P (VList l).
Hypothesis P_dict : forall d, Forall (fun kv => P (snd kv)) d -> P (VDict d).

Fixpoint value_nested_ind (v : value) : P v :=
  match v with
  | VScalar a => P_scalar a
  | VList l =>
      P_list l
        ((fix items (l : list value) : Forall P l :=
            match l with
            | [] => Forall_nil _
            | x :: l' => Forall_cons x (value_nested_ind x) (items l')
            end) l)
  | VDict d =>
      P_dict d
        ((fix entries (d : list (scalar * value)) : Forall (fun kv => P (snd kv)) d :=
            match d with
            | [] => Forall_nil _
            | kv :: d' => Forall_cons kv (value_nested_ind (snd kv)) (entries d')
            end) d)
  end.

End ValueInduction.

(** ** Strings *)

Lemma prefix_iff_append (p s : string) :
  String.prefix p s = true <-> exists rest, s = p ++ rest.
Proof.
  revert s; induction p as [|c p IH]; intros s.
  - destruct s; simpl; split; eauto.
  - destruct s as [|c' s]; simpl.
    + split; [discriminate | intros [rest H]; discriminate].
    + destruct (Ascii.ascii_dec c c') as [->|Hne].
      * rewrite IH. split; intros [rest H]; exists rest.
        -- now rewrite H.
        -- now inversion H.
      * split; [discriminate | intros [rest H]; inversion H; congruence].
Qed.

Lemma accepted_string_iff (s : string) :
  String.eqb s "" || Str.startswith s "ENC[" = true
  <-> s = "" \/ exists rest, s = "ENC[" ++ rest.
Proof.
  unfold Str.startswith.
  rewrite orb_true_iff, String.eqb_eq, prefix_iff_append. reflexivity.
Qed.

Lemma split_cons (sep c : ascii) (s : string) :
  Str.split sep (String c s)
  = if Ascii.eqb c sep then EmptyString :: Str.split sep s
    else match Str.split sep s with
         | h :: t => String c h :: t
         | [] => [String c EmptyString]
         end.
Proof. reflexivity. Qed.

Lemma split_not_empty (sep : ascii) (s : string) : Str.split sep s <> [].
Proof.
  destruct s as [|c s]; [discriminate|]. rewrite split_cons.
  destruct (Ascii.eqb c sep); [discriminate|].
  destruct (Str.split sep s); discriminate.
Qed.

(** ** C6: the leaf rule *)

(** C6. [validate_enc v] is true exactly when [v] is a string that is empty or
    begins with [ENC[], a sequence whose elements all pass, or a mapping whose
    values all pass; [None], booleans, integers and floats fail, and the empty
    string passes. *)
Theorem validate_enc_iff_encrypted :
  (forall v, Py.truthy (validate_enc v) = true <-> encrypted v)
  /\ Py.truthy (validate_enc (VStr "")) = true
  /\ Py.truthy (validate_enc VNone) = false
  /\ (forall b, Py.truthy (validate_enc (VBool b)) = false)
  /\ (forall n, Py.truthy (validate_enc (VInt n)) = false)
  /\ (forall q, Py.truthy (validate_enc (VScalar (SFloat q))) = false).
Proof.
  split; [|repeat split; reflexivity].
  induction v as [a|l IH|d IH] using value_nested_ind.
  - destruct a as [|b|n|q|s]; simpl;
      try (split; [discriminate | intros H; inversion H]).
    destruct (String.eqb s "" || Str.startswith s "ENC[") eqn:E; simpl.
    + split; [intros _|reflexivity]. constructor. now apply accepted_string_iff.
    + split; [discriminate|]. intros H. inversion H as [s' Hs| |]; subst.
      apply accepted_string_iff in Hs. congruence.
  - simpl. rewrite forallb_forall. split.
    + intros H. constructor. rewrite Forall_forall in *.
      intros x Hx. apply IH; auto.
    + intros H. inversion H as [|l' Hl|]; subst. rewrite Forall_forall in *.
      intros x Hx. apply IH; auto.
  - simpl. rewrite forallb_forall. split.
    + intros H. constructor. rewrite Forall_forall in *.
      intros x Hx. apply IH; auto.
    + intros H. inversion H as [| |d' Hd]; subst. rewrite Forall_forall in *.
      intros x Hx. apply IH; auto.
Qed.

(** ** Mappings *)

Lemma Qeq_bool_refl (q : Q) : Qeq_bool q q = true.
Proof. apply Qeq_bool_iff. reflexivity. Qed.

Lemma scalar_eqb_refl (k : scalar) : Py.scalar_eqb k k = true.
Proof.
  destruct k; simpl; auto using Qeq_bool_refl, String.eqb_refl.
Qed.

Lemma scalar_eqb_str (k : scalar) (s : string) :
  Py.scalar_eqb k (SStr s) = true <-> k = SStr s.
Proof.
  destruct k; simpl; try (split; [discriminate | intros H; inversion H]).
  rewrite String.eqb_eq. split; [now intros -> | now intros [= ->]].
Qed.

Lemma eq_str_scalar (k : scalar) (s : string) :
  Py.eq_str (VScalar k) s = Py.scalar_eqb k (SStr s).
Proof. destruct k; reflexivity. Qed.

Lemma has_key_iff (d : list (scalar * value)) (s : string) :
  existsb (fun kv => Py.scalar_eqb (fst kv) (SStr s)) d = true
  <-> In (SStr s) (map fst d).
Proof.
  rewrite existsb_exists, in_map_iff. split.
  - intros [kv [Hin H]]. apply scalar_eqb_str in H. eauto.
  - intros [kv [H Hin]]. exists kv. split; auto. now apply scalar_eqb_str.
Qed.

Lemma lookup_key (d : list (scalar * value)) (k : scalar) :
  In k (map fst d) -> exists v, Py.lookup d k = Some v.
Proof.
  induction d as [|[k' v'] d IH]; simpl; [contradiction|].
  intros [->|Hin].
  - rewrite scalar_eqb_refl. eauto.
  - destruct (Py.scalar_eqb k' k); eauto.
Qed.

(** On a mapping the loop never raises: every key it meets is a key of the
    mapping, and it collects the failing keys in order. *)
Lemma scan_dict (d : list (scalar * value)) (re : list string) (ks : list scalar) :
  forall acc,
    Forall (fun k => In k (map fst d)) ks ->
    scan (VDict d) re (map VScalar ks) acc
    = Return (acc ++ map VScalar (filter (failing d re) ks))%list.
Proof.
  induction ks as [|k ks IH]; intros acc Hks; simpl.
  - now rewrite app_nil_r.
  - inversion Hks as [|k' ks' Hk Hks']; subst.
    unfold failing at 1.
    destruct (selected re (VScalar k)) eqn:Hsel; simpl; [|now apply IH].
    destruct (lookup_key d k Hk) as [v Hv]. rewrite Hv. simpl.
    destruct (Py.truthy (validate_enc v)); simpl.
    + now apply IH.
    + rewrite IH by assumption. now rewrite <- app_assoc.
Qed.

Lemma scan_document (d : list (scalar * value)) (re : list string) :
  scan (VDict d) re (map VScalar (map fst d)) []
  = Return (map VScalar (failing_keys d re)).
Proof.
  rewrite scan_dict; [reflexivity|]. now apply Forall_forall.
Qed.

Lemma strings_of_names (names : list string) :
  Py.strings (map VScalar (map SStr names)) = Return names.
Proof.
  induction names as [|s names IH]; simpl; [reflexivity|]. now rewrite IH.
Qed.

(** [check_doc] on a mapping. *)
Lemma check_doc_dict (w : World) (filename : string) (d : list (scalar * value)) :
  check_doc w filename (VDict d)
  = if existsb (fun kv => Py.scalar_eqb (fst kv) (SStr "sops")) d then
      match load_encrypted_regex w with
      | NotReadable => Return config_not_readable
      | Filter re =>
          if is_empty (failing_keys d re) then Return (valid_encryption filename)
          else keys <- Py.join "," (map VScalar (failing_keys d re)) ;;
               Return (unencrypted filename keys)
      end
    else Return (no_metadata filename).
Proof.
  unfold check_doc. simpl Py.contains_str. simpl bind at 1.
  destruct (existsb _ d); simpl negb; cbv iota; [|reflexivity].
  unfold check_keys.
  destruct (load_encrypted_regex w) as [|re]; [reflexivity|].
  change (Py.iter (VDict d)) with (Return (map (fun kv => VScalar (fst kv)) d)).
  rewrite <- map_map. simpl bind at 1. rewrite scan_document. simpl bind at 1.
  destruct (failing_keys d re); reflexivity.
Qed.

Lemma check_file_loaded (w : World) (filename text : string) (doc : value) :
  read_text w filename = Return text ->
  loader_func w filename text = Return doc ->
  check_file w filename = check_doc w filename doc.
Proof.
  intros Hread Hload. unfold check_file. rewrite Hread. simpl. now rewrite Hload.
Qed.

(** ** C5: a document without the metadata key *)

(** C5. When the loaded document is a mapping with no key ["sops"],
    [check_file] returns a false verdict whose message names the file and says
    that it is not properly encrypted, whatever the configuration and whatever
    the values of the mapping are. *)
Theorem check_file_without_metadata_key :
  forall w filename text d,
    read_text w filename = Return text ->
    loader_func w filename text = Return (VDict d) ->
    ~ In (SStr "sops") (map fst d) ->
    check_file w filename
    = Return (false,
              filename ++ ": sops metadata key not found in file, is not properly encrypted").
Proof.
  intros w filename text d Hread Hload Hno.
  rewrite (check_file_loaded _ _ _ _ Hread Hload), check_doc_dict.
  destruct (existsb _ d) eqn:E; [|reflexivity].
  apply has_key_iff in E. contradiction.
Qed.

Lemma check_file_scenario_B :
  check_file (Scenario.repo None) "b.json"
  = Return (false,
            "b.json: sops metadata key not found in file, is not properly encrypted").
Proof.
  apply (check_file_without_metadata_key (Scenario.repo None) "b.json"
           Scenario.text_B [(SStr "a", VStr "plaintext")]).
  - reflexivity.
  - reflexivity.
  - simpl. intros [H|[]]. discriminate H.
Defined.

(** ** C8: the verdict on a mapping *)

(** C8, as the code has it.  For a mapping with the metadata key, when the
    configuration block has left the pattern list [re] (the YAML loader has
    not raised [ParserError] on the configuration) and every selected key
    that fails the leaf rule is a string, these keys being [names] in
    document order: [check_file] returns true when [names] is empty, and
    otherwise false with the message that lists [names] joined by commas. *)
Theorem check_file_lists_failing_keys :
  forall w filename text d re names,
    read_text w filename = Return text ->
    loader_func w filename text = Return (VDict d) ->
    In (SStr "sops") (map fst d) ->
    load_encrypted_regex w = Filter re ->
    failing_keys d re = map SStr names ->
    check_file w filename
    = Return (if is_empty names
              then (true, filename ++ ": Valid encryption")
              else (false,
                    filename ++ ": Unencrypted values found nested under keys: "
                      ++ String.concat "," names)).
Proof.
  intros w filename text d re names Hread Hload Hsops Hre Hnames.
  rewrite (check_file_loaded _ _ _ _ Hread Hload), check_doc_dict.
  apply has_key_iff in Hsops. rewrite Hsops, Hre, Hnames.
  destruct names as [|n names]; [reflexivity|].
  unfold Py.join. rewrite strings_of_names. reflexivity.
Qed.

Lemma check_file_scenarios_A_C :
  check_file (Scenario.repo None) "a.json" = Return (true, "a.json: Valid encryption")
  /\ check_file (Scenario.repo None) "c.json"
     = Return (false, "c.json: Unencrypted values found nested under keys: a").
Proof.
  split.
  - apply (check_file_lists_failing_keys (Scenario.repo None) "a.json"
             Scenario.text_A
             [(SStr "sops", VDict []); (SStr "a", VStr "ENC[AES256...]")] [] []);
      try reflexivity.
    simpl; auto.
  - apply (check_file_lists_failing_keys (Scenario.repo None) "c.json"
             Scenario.text_C
             [(SStr "sops", VDict []); (SStr "a", VStr "plaintext");
              (SStr "b", VStr "ENC[x]")] [] ["a"]);
      try reflexivity.
    simpl; auto.
Defined.

(** The claim C8 fails in two places.  Where the YAML loader raises
    [ParserError] on the configuration: no key of [a.json] fails the leaf
    rule, whatever the pattern list, and the metadata key is present, yet the
    verdict is false; the key [a] of [c.json] fails, yet the message does not
    list it.  And where a failing key is not a string: the key [8080] of
    [ports.yaml] is checked and fails, with no configuration at all, and
    [check_file] raises [TypeError] where the claim has a false verdict that
    lists the key. *)
Lemma parser_error_hides_the_keys :
  (forall re, failing_keys [(SStr "sops", VDict []); (SStr "a", VStr "ENC[AES256...]")] re = [])
  /\ check_file (Scenario.repo (Some Scenario.config_unclosed)) "a.json"
     = Return (false, ".sops.yaml is not readable")
  /\ failing_keys [(SStr "sops", VDict []); (SStr "a", VStr "plaintext");
                   (SStr "b", VStr "ENC[x]")] [] = [SStr "a"]
  /\ check_file (Scenario.repo (Some Scenario.config_unclosed)) "c.json"
     = Return (false, ".sops.yaml is not readable")
  /\ load_encrypted_regex (Scenario.repo None) = Filter []
  /\ failing_keys [(SStr "sops", VDict []); (SInt 8080, VStr "plaintext")] []
     = [SInt 8080]
  /\ check_file (Scenario.repo None) "ports.yaml" = Raise TypeError.
Proof.
  split; [|repeat split].
  intros re. unfold failing_keys, failing. cbn [map fst filter].
  replace (selected re (VScalar (SStr "sops"))) with false by reflexivity.
  cbn [andb]. now rewrite andb_false_r.
Qed.

(** In a mapping with distinct keys, [doc[k]] is the value written next to
    [k]: the failing keys are the keys of the failing entries. *)
Lemma lookup_distinct (d : list (scalar * value)) :
  distinct_keys d = true ->
  forall k v, In (k, v) d -> Py.lookup d k = Some v.
Proof.
  induction d as [|[k0 v0] d IH]; intros Hd k v Hin; [contradiction|].
  cbn [distinct_keys] in Hd. apply andb_true_iff in Hd. destruct Hd as [Hk0 Hd].
  cbn [Py.lookup]. destruct Hin as [[= -> ->]|Hin].
  - now rewrite scalar_eqb_refl.
  - destruct (Py.scalar_eqb k0 k) eqn:E; [|now apply IH].
    apply negb_true_iff in Hk0.
    assert (Hex : existsb (fun kv => Py.scalar_eqb k0 (fst kv)) d = true).
    { apply existsb_exists. exists (k, v). split; assumption. }
    congruence.
Qed.

Lemma filter_keys {A B : Type} (f : A -> bool) (l : list (A * B)) :
  filter f (map fst l) = map fst (filter (fun kv => f (fst kv)) l).
Proof.
  induction l as [|[a b] l IH]; [reflexivity|].
  cbn [map fst filter]. destruct (f a); cbn [map fst]; now rewrite IH.
Qed.

Lemma failing_keys_distinct (d : list (scalar * value)) (re : list string) :
  distinct_keys d = true ->
  failing_keys d re = map fst (filter (failing_entry re) d).
Proof.
  intros Hd. unfold failing_keys. rewrite filter_keys. f_equal.
  apply filter_ext_in. intros [k v] Hin. unfold failing, failing_entry.
  cbn [fst snd]. now rewrite (lookup_distinct d Hd k v Hin).
Qed.

(** A failing key that is not a string cannot be joined: [check_file] raises. *)
Lemma non_string_key_raises :
  failing_keys [(SStr "sops", VDict []); (SInt 8080, VStr "plaintext")] [] = [SInt 8080]
  /\ check_file (Scenario.repo None) "ports.yaml" = Raise TypeError.
Proof. split; reflexivity. Qed.

(** ** C7: the value under the metadata key *)

Lemma scalar_eqb_str_l (k : scalar) (s : string) :
  Py.scalar_eqb (SStr s) k = true <-> k = SStr s.
Proof.
  destruct k; simpl; try (split; [discriminate | intros H; inversion H]).
  rewrite String.eqb_eq. split; [now intros -> | now intros [= ->]].
Qed.

Lemma with_sops_keys (v : value) (d : list (scalar * value)) :
  map fst (with_sops v d) = map fst d.
Proof.
  unfold with_sops. rewrite map_map. apply map_ext.
  intros [k x]; simpl. now destruct (Py.scalar_eqb k (SStr "sops")).
Qed.

Lemma with_sops_has_key (v : value) (d : list (scalar * value)) :
  existsb (fun kv => Py.scalar_eqb (fst kv) (SStr "sops")) (with_sops v d)
  = existsb (fun kv => Py.scalar_eqb (fst kv) (SStr "sops")) d.
Proof.
  induction d as [|[k x] d IH]; simpl; [reflexivity|].
  rewrite IH. now destruct (Py.scalar_eqb k (SStr "sops")) eqn:E; simpl; rewrite ?E.
Qed.

Lemma with_sops_lookup (v : value) (d : list (scalar * value)) (k : scalar) :
  k <> SStr "sops" -> Py.lookup (with_sops v d) k = Py.lookup d k.
Proof.
  intros Hk. induction d as [|[k' x] d IH]; simpl; [reflexivity|].
  destruct (Py.scalar_eqb k' (SStr "sops")) eqn:E; simpl.
  - apply scalar_eqb_str in E. subst k'.
    destruct (Py.scalar_eqb (SStr "sops") k) eqn:E'; [|exact IH].
    apply scalar_eqb_str_l in E'. contradiction.
  - now rewrite IH.
Qed.

Lemma selected_not_sops (re : list string) (k : scalar) :
  selected re (VScalar k) = true -> k <> SStr "sops".
Proof.
  unfold selected. rewrite andb_true_iff, negb_true_iff, eq_str_scalar.
  intros [H _] ->. now rewrite scalar_eqb_refl in H.
Qed.

Lemma with_sops_failing_keys (v : value) (d : list (scalar * value)) (re : list string) :
  failing_keys (with_sops v d) re = failing_keys d re.
Proof.
  unfold failing_keys. rewrite with_sops_keys. apply filter_ext.
  intros k. unfold failing.
  destruct (selected re (VScalar k)) eqn:Hsel; [|reflexivity].
  now rewrite with_sops_lookup by (eapply selected_not_sops; eauto).
Qed.

Lemma check_doc_with_sops (w : World) (filename : string) (v : value)
    (d : list (scalar * value)) :
  check_doc w filename (VDict (with_sops v d)) = check_doc w filename (VDict d).
Proof.
  rewrite !check_doc_dict, with_sops_has_key.
  destruct (existsb _ d); [|reflexivity].
  destruct (load_encrypted_regex w) as [|re]; [reflexivity|].
  now rewrite with_sops_failing_keys.
Qed.

Lemma failing_keys_not_sops (d : list (scalar * value)) (re : list string) :
  ~ In (SStr "sops") (failing_keys d re).
Proof.
  unfold failing_keys. rewrite filter_In. intros [_ H].
  unfold failing in H. apply andb_true_iff in H. destruct H as [H _].
  now apply selected_not_sops in H.
Qed.

(** C7. Take two runs that load, for the same file, two mappings that differ
    only in the value stored under ["sops"], with the same outcome of the
    configuration block: [check_file] returns the same result in both.  And
    whatever the pattern list, the loop over a mapping ends with a list of
    invalid keys in which ["sops"] does not occur. *)
Theorem metadata_value_is_exempt :
  forall w w' filename text text' d v,
    read_text w filename = Return text ->
    loader_func w filename text = Return (VDict d) ->
    read_text w' filename = Return text' ->
    loader_func w' filename text' = Return (VDict (with_sops v d)) ->
    load_encrypted_regex w' = load_encrypted_regex w ->
    check_file w' filename = check_file w filename
    /\ forall re, exists invalid_keys,
         scan (VDict d) re (map VScalar (map fst d)) [] = Return invalid_keys
         /\ ~ In (VStr "sops") invalid_keys.
Proof.
  intros w w' filename text text' d v Hread Hload Hread' Hload' Hcfg. split.
  - rewrite (check_file_loaded _ _ _ _ Hread Hload),
      (check_file_loaded _ _ _ _ Hread' Hload').
    rewrite <- (check_doc_with_sops w filename v d), !check_doc_dict, Hcfg.
    reflexivity.
  - intros re. exists (map VScalar (failing_keys d re)). split.
    + apply scan_document.
    + rewrite in_map_iff. intros [k [Hk Hin]]. inversion Hk; subst.
      now apply failing_keys_not_sops in Hin.
Qed.

Lemma metadata_value_is_exempt_scenario :
  check_file Scenario.repo_meta "c.json" = check_file (Scenario.repo None) "c.json".
Proof.
  apply (metadata_value_is_exempt (Scenario.repo None) Scenario.repo_meta "c.json"
           Scenario.text_C Scenario.text_C_meta
           [(SStr "sops", VDict []); (SStr "a", VStr "plaintext"); (SStr "b", VStr "ENC[x]")]
           (VStr "plaintext"));
    reflexivity.
Defined.

(** ** C1 and C2: what happens to the errors of the loaders *)

Lemma check_doc_config (w w' : World) (filename : string) (doc : value) :
  load_encrypted_regex w = load_encrypted_regex w' ->
  check_doc w filename doc = check_doc w' filename doc.
Proof.
  intros H. unfold check_doc, check_keys. now rewrite H.
Qed.

Lemma config_failure_empty (w : World) :
  config_failure w -> load_encrypted_regex w = Filter [].
Proof.
  unfold load_encrypted_regex.
  intros [e Hread|sc e Hread Hload Hne|sc config e Hread Hload Hshape].
  - now rewrite Hread.
  - rewrite Hread, Hload. destruct e; congruence.
  - now rewrite Hread, Hload, Hshape.
Qed.

Lemma without_config_empty (w : World) :
  load_encrypted_regex (without_config w) = Filter [].
Proof. reflexivity. Qed.

Lemma check_file_without_config (w : World) (filename : string) :
  filename <> sops_config ->
  load_encrypted_regex w = Filter [] ->
  check_file w filename = check_file (without_config w) filename.
Proof.
  intros Hname Hre. unfold check_file.
  assert (Hread : read_text (without_config w) filename = read_text w filename).
  { simpl. apply String.eqb_neq in Hname. now rewrite Hname. }
  rewrite Hread.
  destruct (read_text w filename) as [text|e]; [|reflexivity]. simpl.
  change (loader_func (without_config w) filename) with (loader_func w filename).
  destruct (loader_func w filename text) as [doc|e]; [|reflexivity].
  apply check_doc_config. now rewrite Hre.
Qed.

(** C1, as the code has it.  When the configuration cannot be read, when its
    loading raises anything but the YAML [ParserError], or when the loaded value
    lacks the expected fields or shape, the pattern list stays empty and
    [check_file] returns, for any file other than the configuration itself, what
    it returns where [.sops.yaml] does not exist.  When the loading raises
    [ParserError], [check_file] returns the false verdict
    [.sops.yaml is not readable] for every document that passes the
    metadata-key test. *)
Theorem config_failure_is_swallowed :
  forall w filename,
    (config_failure w ->
     filename <> sops_config ->
     load_encrypted_regex w = Filter []
     /\ check_file w filename = check_file (without_config w) filename)
    /\ (forall sc text doc,
          read_text w sops_config = Return sc ->
          yaml_load w sc = Raise ParserError ->
          read_text w filename = Return text ->
          loader_func w filename text = Return doc ->
          Py.contains_str doc "sops" = Return true ->
          check_file w filename = Return (false, ".sops.yaml is not readable")).
Proof.
  intros w filename. split.
  - intros Hfail Hname. pose proof (config_failure_empty w Hfail) as Hre.
    split; [exact Hre | now apply check_file_without_config].
  - intros sc text doc Hsc Hparse Hread Hload Hsops.
    rewrite (check_file_loaded _ _ _ _ Hread Hload). unfold check_doc.
    rewrite Hsops. simpl. unfold check_keys, load_encrypted_regex.
    now rewrite Hsc, Hparse.
Qed.

Lemma config_failure_scenarios :
  (check_file (Scenario.repo (Some Scenario.config_open_quote)) "c.json"
   = check_file (without_config (Scenario.repo (Some Scenario.config_open_quote))) "c.json")
  /\ (check_file (Scenario.repo (Some Scenario.config_no_rules)) "c.json"
      = check_file (without_config (Scenario.repo (Some Scenario.config_no_rules))) "c.json")
  /\ check_file (Scenario.repo (Some Scenario.config_unclosed)) "c.json"
     = Return (false, ".sops.yaml is not readable").
Proof.
  split; [|split].
  - apply (proj1 (config_failure_is_swallowed
                    (Scenario.repo (Some Scenario.config_open_quote)) "c.json")).
    + apply (cf_load _ Scenario.config_open_quote ScannerError);
        [reflexivity | reflexivity | discriminate].
    + discriminate.
  - apply (proj1 (config_failure_is_swallowed
                    (Scenario.repo (Some Scenario.config_no_rules)) "c.json")).
    + apply (cf_shape _ Scenario.config_no_rules
               (VDict [(SStr "creation_rules", VList [])]) IndexError);
        reflexivity.
    + discriminate.
  - apply (proj2 (config_failure_is_swallowed
                    (Scenario.repo (Some Scenario.config_unclosed)) "c.json")
             Scenario.config_unclosed Scenario.text_C Scenario.doc_C);
      reflexivity.
Defined.

(** The claim C1 fails where the YAML loader raises [ParserError] on the
    configuration: a properly encrypted file, valid without the
    configuration, gets a false verdict. *)
Lemma config_parser_error_fails_the_file :
  check_file (Scenario.repo None) "a.json" = Return (true, "a.json: Valid encryption")
  /\ check_file (Scenario.repo (Some Scenario.config_unclosed)) "a.json"
     = Return (false, ".sops.yaml is not readable").
Proof. split; reflexivity. Qed.

Lemma loader_error_propagates (w : World) (filename text : string) (e : exn) :
  read_text w filename = Return text ->
  loader_func w filename text = Raise e ->
  e <> ParserError ->
  check_file w filename = Raise e.
Proof.
  intros Hread Hload Hne. unfold check_file. rewrite Hread. simpl. rewrite Hload.
  destruct e; congruence.
Qed.

Lemma parser_error_verdict (w : World) (filename text : string) :
  read_text w filename = Return text ->
  loader_func w filename text = Raise ParserError ->
  check_file w filename
  = Return (false, filename ++ ": Not valid JSON or YAML, is not properly encrypted").
Proof.
  intros Hread Hload. unfold check_file. rewrite Hread. simpl. now rewrite Hload.
Qed.

(** C2, at the malformed JSON text [{not valid}]: [json.load] raises
    [JSONDecodeError], the handler of [check_file] names [ParserError] only,
    and the call raises where the claim expects a false verdict. *)
Theorem check_file_malformed_json_raises :
  read_text (Scenario.repo None) "d.json" = Return "{not valid}"
  /\ loader_func (Scenario.repo None) "d.json" "{not valid}" = Raise JSONDecodeError
  /\ check_file (Scenario.repo None) "d.json" = Raise JSONDecodeError.
Proof. repeat split. Qed.

(** ** C3: which keys the filter selects *)

Lemma existsb_eq_str (re : list string) (k : scalar) :
  existsb (Py.eq_str (VScalar k)) re = true <-> exists p, In p re /\ k = SStr p.
Proof.
  rewrite existsb_exists. split; intros [p [Hin H]]; exists p; split; auto.
  - rewrite eq_str_scalar in H. now apply scalar_eqb_str in H.
  - rewrite eq_str_scalar. now apply scalar_eqb_str.
Qed.

(** A configuration that yields a pattern list yields a non-empty one: the
    filter it sets is always in force. *)
Lemma encrypted_regex_not_empty (config : value) (re : list string) :
  encrypted_regex_of config = Return re -> re <> [].
Proof.
  unfold encrypted_regex_of.
  destruct (Py.getitem config (VStr "creation_rules")) as [rules|]; [|discriminate].
  cbn [bind].
  destruct (Py.getitem rules (VInt 0)) as [rule|]; [|discriminate]. cbn [bind].
  destruct (Py.getitem rule (VStr "encrypted_regex")) as [regex|]; [|discriminate].
  cbn [bind].
  destruct (Py.strip regex "'$^()") as [stripped|]; [|discriminate]. cbn [bind].
  intros [= <-]. apply split_not_empty.
Qed.

Lemma selected_iff_listed (re : list string) (k : scalar) :
  re <> [] ->
  selected re (VScalar k) = true
  <-> k <> SStr "sops" /\ exists p, In p re /\ k = SStr p.
Proof.
  intros Hre. unfold selected.
  rewrite andb_true_iff, negb_true_iff, orb_true_iff, eq_str_scalar, existsb_eq_str.
  split.
  - intros [Hk [Hp|Hempty]].
    + split; [|exact Hp]. intros ->. now rewrite scalar_eqb_refl in Hk.
    + destruct re; [contradiction | discriminate].
  - intros [Hk Hp]. split; [|now left].
    destruct (Py.scalar_eqb k (SStr "sops")) eqn:E; auto.
    apply scalar_eqb_str in E. contradiction.
Qed.

Lemma existsb_eq_str_names (name : string) (re : list string) :
  existsb (Py.eq_str (VScalar (SStr name))) re = existsb (String.eqb name) re.
Proof. reflexivity. Qed.

Lemma existsb_eq_str_other (k : scalar) (re : list string) :
  (forall s, k <> SStr s) -> existsb (Py.eq_str (VScalar k)) re = false.
Proof.
  intros Hk. induction re as [|p re IH]; [reflexivity|].
  cbn [existsb]. rewrite IH. destruct k; try reflexivity. now contradiction (Hk s).
Qed.

(** With a pattern list in force, the failing entries of the loop are the
    entries that [listed_failure] names. *)
Lemma failing_entries_listed (re : list string) (d : list (scalar * value)) :
  re <> [] ->
  map fst (filter (failing_entry re) d) = map SStr (listed_failures re d).
Proof.
  intros Hre. induction d as [|[k v] d IH]; [reflexivity|].
  cbn [filter listed_failures]. unfold failing_entry at 1, listed_failure, selected.
  cbn [fst snd].
  assert (His : is_empty re = false) by (destruct re; [contradiction | reflexivity]).
  rewrite His, orb_false_r.
  destruct k as [|b|n|q|name];
    try (rewrite existsb_eq_str_other by discriminate;
         rewrite andb_false_r; cbn [andb]; exact IH).
  rewrite existsb_eq_str_names. unfold Py.eq_str.
  destruct (negb (String.eqb name "sops") && existsb (String.eqb name) re
            && negb (Py.truthy (validate_enc v))); cbn [map fst]; now rewrite IH.
Qed.

(** C3, as the code has it.  When the configuration yields a pattern list, a
    top-level key is subjected to the leaf rule exactly when it is not
    ["sops"] and is equal, as a string, to one of the patterns; no pattern is
    interpreted as a regular expression.  The loop does check these keys and
    no other: for a mapping with the metadata key, [check_file] returns the
    false verdict that lists, in document order, the keys equal to a pattern
    whose value the leaf rule rejects, and the true verdict when there is
    none.  With the pattern list [["data"]] read from the configuration, the
    document [{sops: {}, data: {x: "ENC[...]"}, other: 12345}] is valid and
    the document [{sops: {}, data: plaintext}] is rejected for its key
    [data]. *)
Theorem key_filter_selects_listed_keys :
  (forall config re k,
      encrypted_regex_of config = Return re ->
      selected re (VScalar k) = true
      <-> k <> SStr "sops" /\ exists p, In p re /\ k = SStr p)
  /\ (forall w filename text d re,
        read_text w filename = Return text ->
        loader_func w filename text = Return (VDict d) ->
        In (SStr "sops") (map fst d) ->
        distinct_keys d = true ->
        load_encrypted_regex w = Filter re ->
        re <> [] ->
        check_file w filename
        = Return (if is_empty (listed_failures re d)
                  then (true, filename ++ ": Valid encryption")
                  else (false,
                        filename ++ ": Unencrypted values found nested under keys: "
                          ++ String.concat "," (listed_failures re d))))
  /\ load_encrypted_regex (Scenario.repo (Some Scenario.config_data)) = Filter ["data"]
  /\ check_file (Scenario.repo (Some Scenario.config_data)) "secrets.yaml"
     = Return (true, "secrets.yaml: Valid encryption")
  /\ check_file (Scenario.repo (Some Scenario.config_data)) "leak.yaml"
     = Return (false, "leak.yaml: Unencrypted values found nested under keys: data").
Proof.
  split; [|split; [|repeat split]].
  - intros config re k Hre. apply selected_iff_listed.
    now apply (encrypted_regex_not_empty config).
  - intros w filename text d re Hread Hload Hsops Hdistinct Hre Hne.
    rewrite (check_file_loaded _ _ _ _ Hread Hload), check_doc_dict.
    apply has_key_iff in Hsops. rewrite Hsops, Hre.
    rewrite (failing_keys_distinct d re Hdistinct), (failing_entries_listed re d Hne).
    unfold Py.join. rewrite strings_of_names.
    destruct (listed_failures re d); reflexivity.
Qed.

Lemma key_filter_selects_listed_keys_example :
  selected ["data"] (VStr "data") = true
  /\ (selected ["data"] (VStr "other") = true -> False)
  /\ check_file (Scenario.repo (Some Scenario.config_data)) "leak.yaml"
     = Return (false, "leak.yaml: Unencrypted values found nested under keys: data")
  /\ check_file (Scenario.repo (Some Scenario.config_data)) "secrets.yaml"
     = Return (true, "secrets.yaml: Valid encryption").
Proof.
  split; [|split; [|split]].
  - apply (proj1 key_filter_selects_listed_keys
             (config_value (VStr "^(data)$")) ["data"] (SStr "data") eq_refl).
    split; [discriminate|]. exists "data". split; [left|]; reflexivity.
  - intros H.
    apply (proj1 key_filter_selects_listed_keys
             (config_value (VStr "^(data)$")) ["data"] (SStr "other") eq_refl) in H.
    destruct H as [_ [p [[<-|[]] Hp]]]. discriminate Hp.
  - apply (proj1 (proj2 key_filter_selects_listed_keys)
             (Scenario.repo (Some Scenario.config_data)) "leak.yaml" Scenario.text_leak
             [(SStr "sops", VDict []); (SStr "data", VStr "plaintext")] ["data"]);
      try reflexivity.
    + left; reflexivity.
    + discriminate.
  - apply (proj1 (proj2 key_filter_selects_listed_keys)
             (Scenario.repo (Some Scenario.config_data)) "secrets.yaml"
             Scenario.text_narrow_sops
             [(SStr "sops", VDict []);
              (SStr "data", VDict [(SStr "x", VStr "ENC[...]")]);
              (SStr "other", VInt 12345)] ["data"]);
      try reflexivity.
    + left; reflexivity.
    + discriminate.
Defined.

(** The claim C3 fails twice.  Its document, which has no key ["sops"], is
    rejected whatever the filter says.  And a pattern is compared, not matched:
    the regular expression [d.ta] matches the key [data], yet the key is not
    selected and the plaintext under it passes, while the same document is
    rejected for its key [data] as soon as the pattern is [data] itself. *)
Lemma key_filter_is_not_a_regex :
  check_file (Scenario.repo (Some Scenario.config_data)) "narrow.yaml"
  = Return (false,
            "narrow.yaml: sops metadata key not found in file, is not properly encrypted")
  /\ load_encrypted_regex (Scenario.repo (Some Scenario.config_wildcard)) = Filter ["d.ta"]
  /\ regex_fullmatch "d.ta" "data" = true
  /\ selected ["d.ta"] (VStr "data") = false
  /\ Py.truthy (validate_enc (VStr "plaintext")) = false
  /\ check_file (Scenario.repo (Some Scenario.config_wildcard)) "leak.yaml"
     = Return (true, "leak.yaml: Valid encryption")
  /\ check_file (Scenario.repo (Some Scenario.config_data)) "leak.yaml"
     = Return (false, "leak.yaml: Unencrypted values found nested under keys: data").
Proof. repeat split. Qed.

(** ** C4: [main] *)

Lemma check_all_verdicts (w : World) (filenames : list string) (verdicts : list verdict) :
  Forall2 (fun f v => check_file w f = Return v) filenames verdicts ->
  forall acc, check_all w filenames acc = Return (acc ++ failures verdicts)%list.
Proof.
  induction 1 as [|f v fs vs Hf _ IH]; intros acc; simpl.
  - now rewrite app_nil_r.
  - rewrite Hf. simpl. destruct v as [[|] message]; simpl.
    + apply IH.
    + rewrite IH. unfold failures. simpl. now rewrite <- app_assoc.
Qed.

Lemma check_all_raises (w : World) (before : list string) (verdicts : list verdict)
    (f : string) (after : list string) (e : exn) :
  Forall2 (fun f v => check_file w f = Return v) before verdicts ->
  check_file w f = Raise e ->
  forall acc, check_all w (before ++ f :: after) acc = Raise e.
Proof.
  intros Hbefore Hf. induction Hbefore as [|g v gs vs Hg _ IH]; intros acc; simpl.
  - now rewrite Hf.
  - rewrite Hg. simpl. destruct v as [[|] message]; simpl; apply IH.
Qed.

Lemma failures_empty (verdicts : list verdict) :
  is_empty (failures verdicts) = forallb fst verdicts.
Proof.
  induction verdicts as [|[[|] message] vs IH]; simpl; auto.
Qed.

Lemma read_error_propagates (w : World) (filename : string) (e : exn) :
  read_text w filename = Raise e -> check_file w filename = Raise e.
Proof. intros H. unfold check_file. now rewrite H. Qed.

(** C4, as the code has it.  When [check_file] returns a verdict for every
    file of a non-empty list, [main] goes through the whole list, prints the
    messages of the false verdicts, one per line and in order (nothing when
    there is none), and returns 0 when every verdict is true and 1 otherwise.
    When a file cannot be opened or read, the exception leaves [check_file]
    and [main]: the files after it are not processed, nothing is printed, not
    even the messages of the files that failed before it, and the process
    ends with status 1. *)
Theorem main_reports_failures :
  forall w,
    (forall filenames verdicts,
        filenames <> [] ->
        Forall2 (fun f v => check_file w f = Return v) filenames verdicts ->
        main w filenames
        = Return (printed (failures verdicts),
                  if forallb fst verdicts then 0%Z else 1%Z))
    /\ (forall before verdicts f after e,
          Forall2 (fun f v => check_file w f = Return v) before verdicts ->
          read_text w f = Raise e ->
          main w (before ++ f :: after) = Raise e
          /\ ((forall code, e <> SystemExit code) ->
              exit_status (main w (before ++ f :: after)) = 1%Z)).
Proof.
  intros w. split.
  - intros filenames verdicts Hne Hall.
    destruct filenames as [|f fs]; [contradiction|].
    unfold main. rewrite (check_all_verdicts _ _ _ Hall). simpl bind.
    rewrite <- failures_empty.
    destruct (failures verdicts); reflexivity.
  - intros before verdicts f after e Hbefore Hread.
    assert (Hmain : main w (before ++ f :: after) = Raise e).
    { unfold main. destruct (before ++ f :: after)%list eqn:E.
      - destruct before; discriminate E.
      - rewrite <- E.
        rewrite (check_all_raises _ _ _ _ _ _ Hbefore (read_error_propagates _ _ _ Hread)).
        reflexivity. }
    split; [exact Hmain|]. intros Hexit. rewrite Hmain.
    destruct e; try reflexivity. now contradiction (Hexit code).
Qed.

Lemma main_reports_failures_scenario :
  main (Scenario.repo None) ["a.json"; "b.json"; "c.json"]
  = Return
      (printed
         ["b.json: sops metadata key not found in file, is not properly encrypted";
          "c.json: Unencrypted values found nested under keys: a"],
       1%Z)
  /\ main (Scenario.repo None) ["a.json"] = Return ("", 0%Z)
  /\ main (Scenario.repo None) ["b.json"; "missing.json"; "c.json"]
     = Raise FileNotFoundError.
Proof.
  split; [|split].
  - apply (proj1 (main_reports_failures (Scenario.repo None))
             ["a.json"; "b.json"; "c.json"]
             [valid_encryption "a.json"; no_metadata "b.json"; unencrypted "c.json" "a"]).
    + discriminate.
    + repeat constructor.
  - apply (proj1 (main_reports_failures (Scenario.repo None))
             ["a.json"] [valid_encryption "a.json"]).
    + discriminate.
    + repeat constructor.
  - apply (proj2 (main_reports_failures (Scenario.repo None))
             ["b.json"] [no_metadata "b.json"] "missing.json" ["c.json"]
             FileNotFoundError).
    + repeat constructor.
    + reflexivity.
Defined.

(** The claim C4 fails on a list with a missing file: [b.json] and [c.json]
    both get a false verdict, but [main] neither prints their messages nor
    returns a code, and [c.json] is never looked at. *)
Lemma main_aborts_on_missing_file :
  check_file (Scenario.repo None) "b.json" = Return (no_metadata "b.json")
  /\ check_file (Scenario.repo None) "c.json" = Return (unencrypted "c.json" "a")
  /\ main (Scenario.repo None) ["b.json"; "missing.json"; "c.json"]
     = Raise FileNotFoundError
  /\ ~ exists out code,
         main (Scenario.repo None) ["b.json"; "missing.json"; "c.json"]
         = Return (out, code).
Proof.
  repeat split. intros [out [code H]]. discriminate H.
Qed.

(** ** C9: the wrapper of the regular expression *)

Lemma lstrip_all_in (chars s : string) :
  all_in chars s = true -> Str.lstrip chars s = "".
Proof.
  induction s as [|c s IH]; simpl; [reflexivity|].
  intros H. apply andb_true_iff in H. destruct H as [Hc Hs]. now rewrite Hc, IH.
Qed.

Lemma lstrip_app_all_in (chars pre s : string) :
  all_in chars pre = true -> Str.lstrip chars (pre ++ s) = Str.lstrip chars s.
Proof.
  induction pre as [|c pre IH]; simpl; [reflexivity|].
  intros H. apply andb_true_iff in H. destruct H as [Hc Hs]. now rewrite Hc, IH.
Qed.

Lemma lstrip_keep (chars s : string) :
  starts_in chars s = false -> Str.lstrip chars s = s.
Proof.
  destruct s as [|c s]; simpl; [reflexivity|]. now intros ->.
Qed.

Lemma rstrip_all_in (chars s : string) :
  all_in chars s = true -> Str.rstrip chars s = "".
Proof.
  induction s as [|c s IH]; simpl; [reflexivity|].
  intros H. apply andb_true_iff in H. destruct H as [Hc Hs]. now rewrite IH, Hc.
Qed.

Lemma rstrip_app_all_in (chars s post : string) :
  all_in chars post = true -> Str.rstrip chars (s ++ post) = Str.rstrip chars s.
Proof.
  intros H. induction s as [|c s IH]; simpl.
  - now apply rstrip_all_in.
  - now rewrite IH.
Qed.

Lemma rstrip_keep (chars s : string) :
  ends_in chars s = false -> Str.rstrip chars s = s.
Proof.
  induction s as [|c s IH]; [reflexivity|].
  destruct s as [|c' s].
  - simpl. now intros ->.
  - intros H. change (ends_in chars (String c' s) = false) in H.
    change (Str.rstrip chars (String c (String c' s)))
      with (match Str.rstrip chars (String c' s) with
            | EmptyString => if Str.mem c chars then EmptyString else String c EmptyString
            | r => String c r
            end).
    now rewrite (IH H).
Qed.

Lemma starts_in_app (chars s t : string) :
  s <> "" -> starts_in chars (s ++ t) = starts_in chars s.
Proof. destruct s; [contradiction | reflexivity]. Qed.

Lemma ends_in_app (chars s t : string) :
  t <> "" -> ends_in chars (s ++ t) = ends_in chars t.
Proof.
  intros Ht. induction s as [|c s IH]; [reflexivity|].
  simpl append. destruct (s ++ t) eqn:E.
  - destruct s, t; try discriminate E. contradiction.
  - exact IH.
Qed.

(** The characters stripped at both ends leave exactly the middle when the
    middle neither begins nor ends with one of them. *)
Lemma strip_wrapper (chars pre middle post : string) :
  all_in chars pre = true ->
  all_in chars post = true ->
  starts_in chars middle = false ->
  ends_in chars middle = false ->
  Str.strip chars (pre ++ middle ++ post) = middle.
Proof.
  intros Hpre Hpost Hstart Hend. unfold Str.strip.
  rewrite lstrip_app_all_in by assumption.
  destruct middle as [|c m].
  - simpl. now rewrite lstrip_all_in.
  - rewrite lstrip_keep.
    + rewrite rstrip_app_all_in by assumption. now apply rstrip_keep.
    + rewrite starts_in_app; [assumption | discriminate].
Qed.

Lemma has_bar_cons (c : ascii) (p : string) :
  has_bar (String c p) = Ascii.eqb "|"%char c || has_bar p.
Proof. reflexivity. Qed.

Lemma split_pattern (p rest : string) :
  has_bar p = false ->
  Str.split "|"%char (p ++ String "|"%char rest) = p :: Str.split "|"%char rest.
Proof.
  induction p as [|c p IH]; intros Hbar.
  - reflexivity.
  - rewrite has_bar_cons in Hbar.
    apply orb_false_iff in Hbar. destruct Hbar as [Hc Hp].
    change (String c p ++ String "|"%char rest)
      with (String c (p ++ String "|"%char rest)).
    rewrite split_cons, Ascii.eqb_sym, Hc. now rewrite (IH Hp).
Qed.

Lemma split_last_pattern (p : string) :
  has_bar p = false -> Str.split "|"%char p = [p].
Proof.
  induction p as [|c p IH]; intros Hbar.
  - reflexivity.
  - rewrite has_bar_cons in Hbar.
    apply orb_false_iff in Hbar. destruct Hbar as [Hc Hp].
    rewrite split_cons, Ascii.eqb_sym, Hc. now rewrite (IH Hp).
Qed.

Lemma split_concat (ps : list string) :
  ps <> [] ->
  Forall (fun p => has_bar p = false) ps ->
  Str.split "|"%char (String.concat "|" ps) = ps.
Proof.
  induction ps as [|p ps IH]; [contradiction|].
  intros _ Hall. inversion Hall as [|p' ps' Hp Hps]; subst.
  destruct ps as [|q ps].
  - now apply split_last_pattern.
  - change (String.concat "|" (p :: q :: ps))
      with (p ++ String "|"%char (String.concat "|" (q :: ps))).
    rewrite split_pattern by assumption.
    rewrite IH; [reflexivity | discriminate | assumption].
Qed.

Lemma starts_in_concat (chars : string) (ps : list string) :
  Str.mem "|"%char chars = false ->
  starts_in chars (hd "" ps) = false ->
  starts_in chars (String.concat "|" ps) = false.
Proof.
  intros Hbar Hhd. destruct ps as [|p [|q ps]]; try assumption.
  change (String.concat "|" (p :: q :: ps))
    with (p ++ String "|"%char (String.concat "|" (q :: ps))).
  destruct p as [|c p]; [exact Hbar | exact Hhd].
Qed.

Lemma ends_in_concat (chars : string) (ps : list string) :
  Str.mem "|"%char chars = false ->
  ends_in chars (last ps "") = false ->
  ends_in chars (String.concat "|" ps) = false.
Proof.
  intros Hbar. induction ps as [|p ps IH]; [reflexivity|].
  destruct ps as [|q ps]; [trivial|].
  intros Hlast.
  change (String.concat "|" (p :: q :: ps))
    with (p ++ String "|"%char (String.concat "|" (q :: ps))).
  rewrite ends_in_app by discriminate.
  destruct (String.concat "|" (q :: ps)) eqn:E.
  - exact Hbar.
  - change (ends_in chars (String "|"%char (String a s)))
      with (ends_in chars (String a s)).
    apply IH. exact Hlast.
Qed.

(** C9, as the code has it.  For a regular expression [^(p1|...|pn)$] with
    at least one pattern, where no pattern contains the pipe, the first does
    not begin and the last does not end with one of the characters ['$^()],
    the loader yields exactly [[p1; ...; pn]].  ([strip] removes every leading
    and trailing character of that set, not the wrapper alone.) *)
Theorem wrapper_is_stripped :
  forall config rules rule ps,
    Py.getitem config (VStr "creation_rules") = Return rules ->
    Py.getitem rules (VInt 0) = Return rule ->
    Py.getitem rule (VStr "encrypted_regex")
    = Return (VStr ("^(" ++ String.concat "|" ps ++ ")$")) ->
    ps <> [] ->
    Forall (fun p => has_bar p = false) ps ->
    starts_in wrapper_chars (hd "" ps) = false ->
    ends_in wrapper_chars (last ps "") = false ->
    encrypted_regex_of config = Return ps.
Proof.
  intros config rules rule ps Hrules Hrule Hregex Hne Hbar Hstart Hend.
  unfold encrypted_regex_of. rewrite Hrules. cbn [bind].
  rewrite Hrule. cbn [bind]. rewrite Hregex. unfold VStr. cbn [bind Py.strip].
  f_equal.
  change "'$^()" with wrapper_chars.
  rewrite (strip_wrapper wrapper_chars "^(" (String.concat "|" ps) ")$").
  - now apply split_concat.
  - reflexivity.
  - reflexivity.
  - now apply starts_in_concat.
  - now apply ends_in_concat.
Qed.

Lemma wrapper_is_stripped_example :
  encrypted_regex_of (config_value (VStr "^(data|stringData)$"))
  = Return ["data"; "stringData"].
Proof.
  apply (wrapper_is_stripped (config_value (VStr "^(data|stringData)$"))
           (VList [VDict [(SStr "encrypted_regex", VStr "^(data|stringData)$")]])
           (VDict [(SStr "encrypted_regex", VStr "^(data|stringData)$")])
           ["data"; "stringData"]);
    try reflexivity.
  - discriminate.
  - repeat constructor.
Defined.

(** The claim C9 fails when the last pattern ends with a parenthesis: of
    [^(a|(b))$], whose patterns are [a] and [(b)], the loader yields [a] and
    [(b]. *)
Lemma wrapper_strip_eats_pattern :
  "^(" ++ String.concat "|" ["a"; "(b)"] ++ ")$" = "^(a|(b))$"
  /\ encrypted_regex_of (config_value (VStr "^(a|(b))$")) = Return ["a"; "(b"]
  /\ encrypted_regex_of (config_value (VStr "^(a|(b))$")) <> Return ["a"; "(b)"]
  /\ load_encrypted_regex (Scenario.repo (Some Scenario.config_group))
     = Filter ["a"; "(b"].
Proof.
  repeat split. discriminate.
Qed.

(** ** C10: a root that is not a mapping *)

(** On a string root the loop raises at the first character it selects:
    a character is not an index of the string. *)
Lemma scan_string (s : string) (re : list string) (cs : list string) :
  forall acc,
    scan (VStr s) re (map VStr cs) acc
    = if existsb (selected re) (map VStr cs) then Raise TypeError else Return acc.
Proof.
  induction cs as [|c cs IH]; intros acc; [reflexivity|].
  cbn [map scan existsb].
  destruct (selected re (VStr c)); [reflexivity|]. apply IH.
Qed.

Lemma selected_character (a : ascii) :
  selected [] (VStr (String a EmptyString)) = true.
Proof.
  unfold selected, VStr, Py.eq_str.
  change (String.eqb (String a "") "sops")
    with (Ascii.eqb a "s"%char && String.eqb "" "ops").
  now destruct (Ascii.eqb a "s"%char).
Qed.

Lemma check_keys_string (w : World) (filename s : string) (re : list string) :
  load_encrypted_regex w = Filter re ->
  check_keys w filename (VStr s)
  = if existsb (selected re) (map VStr (Str.chars s))
    then Raise TypeError
    else Return (valid_encryption filename).
Proof.
  intros Hre. unfold check_keys. rewrite Hre.
  change (Py.iter (VStr s)) with (Return (map VStr (Str.chars s))).
  cbn [bind]. rewrite scan_string.
  now destruct (existsb (selected re) (map VStr (Str.chars s))).
Qed.

(** C10, as the code has it.  For a root that is a string the metadata test
    is a substring test; a string that contains [sops] then passes to the
    loop, which takes each character as a key and raises [TypeError] at the
    first one it selects (with no filter: at the first character), and the
    string is valid when the filter selects none of its characters; since
    [doc[k]] raises for every character [k], none is ever given to
    [validate_enc].  For a sequence the test is a
    comparison with each element.  For [None], a boolean or a number the test
    itself raises [TypeError]. *)
Theorem root_that_is_not_a_mapping :
  forall w filename text doc,
    read_text w filename = Return text ->
    loader_func w filename text = Return doc ->
    (forall s,
        doc = VStr s ->
        (Str.contains s "sops" = false ->
         check_file w filename = Return (no_metadata filename))
        /\ (Str.contains s "sops" = true ->
            forall re,
              load_encrypted_regex w = Filter re ->
              check_file w filename
              = if existsb (selected re) (map VStr (Str.chars s))
                then Raise TypeError
                else Return (valid_encryption filename))
        /\ (Str.contains s "sops" = true ->
            load_encrypted_regex w = Filter [] ->
            check_file w filename = Raise TypeError)
        /\ (forall c, Py.getitem doc (VStr c) = Raise TypeError))
    /\ (forall l,
          doc = VList l ->
          check_file w filename
          = if existsb (fun v => Py.eq_str v "sops") l
            then check_keys w filename doc
            else Return (no_metadata filename))
    /\ (forall a,
          doc = VScalar a ->
          (forall s, a <> SStr s) ->
          check_file w filename = Raise TypeError).
Proof.
  intros w filename text doc Hread Hload.
  rewrite (check_file_loaded _ _ _ _ Hread Hload).
  split; [|split].
  - intros s ->. unfold check_doc.
    change (Py.contains_str (VStr s) "sops") with (Return (Str.contains s "sops")).
    cbn [bind]. repeat split.
    + now intros ->.
    + intros -> re Hre. now apply check_keys_string.
    + intros Hsops Hre. rewrite Hsops. cbn [negb].
      rewrite (check_keys_string _ _ _ _ Hre).
      destruct s as [|a s]; [discriminate Hsops|].
      cbn [Str.chars map existsb]. now rewrite selected_character.
  - intros l ->. unfold check_doc. cbn [Py.contains_str bind].
    now destruct (existsb (fun v => Py.eq_str v "sops") l).
  - intros a -> Ha. unfold check_doc.
    destruct a as [| | | |s]; try reflexivity. now contradiction (Ha s).
Qed.

Lemma root_that_is_not_a_mapping_scenarios :
  check_file (Scenario.repo None) "note.json" = Raise TypeError
  /\ check_file (Scenario.repo (Some Scenario.config_data)) "note.json"
     = Return (true, "note.json: Valid encryption")
  /\ check_file (Scenario.repo None) "number.json" = Raise TypeError.
Proof.
  split; [|split].
  - apply (proj1 (root_that_is_not_a_mapping (Scenario.repo None) "note.json"
                    Scenario.text_note (VStr "sops") eq_refl eq_refl)
             "sops" eq_refl);
      reflexivity.
  - apply (proj1 (proj2 (proj1 (root_that_is_not_a_mapping
                                  (Scenario.repo (Some Scenario.config_data)) "note.json"
                                  Scenario.text_note (VStr "sops") eq_refl eq_refl)
                           "sops" eq_refl))
             eq_refl ["data"] eq_refl).
  - apply (proj2 (proj2 (root_that_is_not_a_mapping (Scenario.repo None) "number.json"
                           Scenario.text_number (VInt 42) eq_refl eq_refl))
             (SInt 42) eq_refl).
    discriminate.
Defined.

(** The claim C10 fails where it says that a string root is validated
    character by character.  On the JSON document ["sops"] such a validation
    would reject the four characters; [check_file] raises [TypeError] at the
    first one with no filter, and with the filter [data] it checks nothing
    and returns a true verdict. *)
Lemma string_root_is_not_validated :
  loader_func (Scenario.repo None) "note.json" Scenario.text_note = Return (VStr "sops")
  /\ Py.contains_str (VStr "sops") "sops" = Return true
  /\ charwise_failures "sops" = ["s"; "o"; "p"; "s"]
  /\ check_file (Scenario.repo None) "note.json" = Raise TypeError
  /\ check_file (Scenario.repo None) "note.json"
     <> Return (unencrypted "note.json" (String.concat "," (charwise_failures "sops")))
  /\ check_file (Scenario.repo (Some Scenario.config_data)) "note.json"
     = Return (true, "note.json: Valid encryption").
Proof.
  repeat split. discriminate.
Qed.

(** * Further properties of the three functions *)

(** ** [validate_enc] and the leaves *)

Lemma forallb_flat_map {A B : Type} (f : B -> bool) (g : A -> list B) (l : list A) :
  forallb f (flat_map g l) = forallb (fun x => forallb f (g x)) l.
Proof.
  induction l as [|x l IH]; [reflexivity|].
  cbn [flat_map forallb]. now rewrite forallb_app, IH.
Qed.

Lemma forallb_pointwise {A : Type} (f g : A -> bool) (l : list A) :
  Forall (fun x => f x = g x) l -> forallb f l = forallb g l.
Proof.
  induction 1 as [|x l Hx _ IH]; [reflexivity|].
  cbn [forallb]. now rewrite Hx, IH.
Qed.

(** X1.  [validate_enc] accepts a value exactly when every leaf of it is a string
    that is empty or starts with [ENC[].  So one number, boolean, [None] or
    plaintext string at any depth rejects the value; an empty list and an
    empty mapping are accepted; the keys of nested mappings are never looked
    at. *)
Theorem validate_enc_checks_the_leaves :
  forall v, Py.truthy (validate_enc v) = forallb accepted_leaf (leaves v).
Proof.
  induction v as [a|l IH|d IH] using value_nested_ind.
  - destruct a as [|b|n|q|s]; try reflexivity.
    cbn [validate_enc leaves forallb accepted_leaf]. rewrite andb_true_r.
    now destruct (String.eqb s "" || Str.startswith s "ENC[").
  - cbn [validate_enc leaves Py.truthy VBool]. rewrite forallb_flat_map.
    now apply forallb_pointwise.
  - cbn [validate_enc leaves Py.truthy VBool]. rewrite forallb_flat_map.
    now apply forallb_pointwise.
Qed.

Lemma validate_enc_encrypted (v : value) :
  Py.truthy (validate_enc v) = true <-> encrypted v.
Proof.
  induction v as [a|l IH|d IH] using value_nested_ind.
  - destruct a as [|b|n|q|s]; simpl;
      try (split; [discriminate | intros H; inversion H]).
    destruct (String.eqb s "" || Str.startswith s "ENC[") eqn:E; simpl.
    + split; [intros _|reflexivity]. constructor. now apply accepted_string_iff.
    + split; [discriminate|]. intros H. inversion H as [s' Hs| |]; subst.
      apply accepted_string_iff in Hs. congruence.
  - simpl. rewrite forallb_forall. rewrite Forall_forall in IH. split.
    + intros H. constructor. apply Forall_forall. intros x Hx. apply IH; auto.
    + intros H x Hx. inversion H as [|l' Hl|]; subst.
      rewrite Forall_forall in Hl. apply IH; auto.
  - simpl. rewrite forallb_forall. rewrite Forall_forall in IH. split.
    + intros H. constructor. apply Forall_forall. intros x Hx. apply IH; auto.
    + intros H x Hx. inversion H as [| |d' Hd]; subst.
      rewrite Forall_forall in Hd. apply IH; auto.
Qed.

(** ** The verdict on a mapping, read on its entries *)

Lemma filter_nil_iff {A : Type} (f : A -> bool) (l : list A) :
  filter f l = [] <-> Forall (fun x => f x = false) l.
Proof.
  induction l as [|x l IH]; cbn [filter].
  - split; auto.
  - destruct (f x) eqn:E.
    + split; [discriminate|]. intros H. inversion H; congruence.
    + rewrite IH. split; [now constructor | intros H; now inversion H].
Qed.

Lemma map_nil_iff {A B : Type} (f : A -> B) (l : list A) : map f l = [] <-> l = [].
Proof. destruct l; split; intros H; try reflexivity; discriminate H. Qed.

(** What [check_doc] returns on a mapping that has the metadata key is a
    true verdict exactly when no selected key fails. *)
Lemma mapping_true_verdict (w : World) (filename : string)
    (d : list (scalar * value)) (re : list string) :
  In (SStr "sops") (map fst d) ->
  load_encrypted_regex w = Filter re ->
  (exists message, check_doc w filename (VDict d) = Return (true, message))
  <-> failing_keys d re = [].
Proof.
  intros Hsops Hre. rewrite check_doc_dict. apply has_key_iff in Hsops.
  rewrite Hsops, Hre. destruct (failing_keys d re) as [|k ks] eqn:E; cbn [is_empty].
  - split; [reflexivity|]. intros _. eexists. reflexivity.
  - split; [|discriminate]. intros [message H].
    destruct (Py.join "," (map VScalar (k :: ks))); discriminate H.
Qed.

Lemma failing_entry_false (re : list string) (kv : scalar * value) :
  failing_entry re kv = false
  <-> (selected re (VScalar (fst kv)) = true -> encrypted (snd kv)).
Proof.
  unfold failing_entry. rewrite <- validate_enc_encrypted.
  destruct (selected re (VScalar (fst kv))); cbn [andb].
  - rewrite negb_false_iff. split; auto.
  - split; [discriminate | reflexivity].
Qed.

(** X2.  For a mapping with distinct keys that has the metadata key, when the
    configuration block leaves the pattern list [re]: [check_file] returns a
    true verdict exactly when the value of every selected key has only
    accepted leaves, at any depth. *)
Theorem valid_iff_selected_values_encrypted :
  forall w filename text d re,
    read_text w filename = Return text ->
    loader_func w filename text = Return (VDict d) ->
    In (SStr "sops") (map fst d) ->
    distinct_keys d = true ->
    load_encrypted_regex w = Filter re ->
    (exists message, check_file w filename = Return (true, message))
    <-> Forall (fun kv => selected re (VScalar (fst kv)) = true -> encrypted (snd kv)) d.
Proof.
  intros w filename text d re Hread Hload Hsops Hdistinct Hre.
  rewrite (check_file_loaded _ _ _ _ Hread Hload).
  rewrite (mapping_true_verdict w filename d re Hsops Hre).
  rewrite (failing_keys_distinct d re Hdistinct), map_nil_iff, filter_nil_iff.
  split; intros H; eapply Forall_impl; try exact H;
    intros kv Hkv; now apply failing_entry_false.
Qed.

Lemma valid_iff_selected_values_encrypted_example :
  Forall (fun kv => selected ["data"] (VScalar (fst kv)) = true -> encrypted (snd kv))
    [(SStr "sops", VDict []);
     (SStr "data", VDict [(SStr "x", VStr "ENC[...]")]);
     (SStr "other", VInt 12345)].
Proof.
  apply (proj1 (valid_iff_selected_values_encrypted
                  (Scenario.repo (Some Scenario.config_data)) "secrets.yaml"
                  Scenario.text_narrow_sops
                  [(SStr "sops", VDict []);
                   (SStr "data", VDict [(SStr "x", VStr "ENC[...]")]);
                   (SStr "other", VInt 12345)]
                  ["data"] eq_refl eq_refl (or_introl eq_refl) eq_refl eq_refl)).
  exists "secrets.yaml: Valid encryption". reflexivity.
Defined.

(** ** A filter only narrows the check *)

Lemma selected_without_filter (re : list string) (k : value) :
  selected re k = true -> selected [] k = true.
Proof.
  unfold selected. rewrite !andb_true_iff. intros [H _]. split; [exact H | reflexivity].
Qed.

Lemma failing_without_filter (d : list (scalar * value)) (re : list string) (k : scalar) :
  failing d re k = true -> failing d [] k = true.
Proof.
  unfold failing. rewrite !andb_true_iff. intros [Hsel Hv].
  split; [now apply (selected_without_filter re) | exact Hv].
Qed.

Lemma failing_keys_narrow (d : list (scalar * value)) (re : list string) :
  failing_keys d [] = [] -> failing_keys d re = [].
Proof.
  unfold failing_keys. rewrite !filter_nil_iff. intros H.
  eapply Forall_impl; [|exact H]. intros k Hk. cbv beta in *.
  destruct (failing d re k) eqn:E; [|reflexivity].
  apply failing_without_filter in E. congruence.
Qed.

(** X3.  A mapping that is valid where [.sops.yaml] does not exist is valid with
    every configuration that leaves a pattern list: a filter can take keys out
    of the check, never bring a failure in. *)
Theorem filter_only_narrows :
  forall w filename text d re,
    filename <> sops_config ->
    read_text w filename = Return text ->
    loader_func w filename text = Return (VDict d) ->
    load_encrypted_regex w = Filter re ->
    check_file (without_config w) filename = Return (valid_encryption filename) ->
    check_file w filename = Return (valid_encryption filename).
Proof.
  intros w filename text d re Hname Hread Hload Hre Hvalid.
  assert (Hread0 : read_text (without_config w) filename = Return text).
  { simpl. apply String.eqb_neq in Hname. now rewrite Hname. }
  rewrite (check_file_loaded (without_config w) filename text (VDict d) Hread0 Hload)
    in Hvalid.
  rewrite (check_file_loaded _ _ _ _ Hread Hload).
  rewrite check_doc_dict in Hvalid. rewrite check_doc_dict.
  destruct (existsb (fun kv => Py.scalar_eqb (fst kv) (SStr "sops")) d);
    [|discriminate Hvalid].
  rewrite without_config_empty in Hvalid. rewrite Hre.
  destruct (failing_keys d []) as [|k ks] eqn:E.
  - now rewrite (failing_keys_narrow d re E).
  - cbn [is_empty] in Hvalid.
    destruct (Py.join "," (map VScalar (k :: ks))); discriminate Hvalid.
Qed.

Lemma filter_only_narrows_example :
  check_file (Scenario.repo (Some Scenario.config_data)) "a.json"
  = Return (valid_encryption "a.json").
Proof.
  apply (filter_only_narrows (Scenario.repo (Some Scenario.config_data)) "a.json"
           Scenario.text_A
           [(SStr "sops", VDict []); (SStr "a", VStr "ENC[AES256...]")] ["data"]);
    try reflexivity.
  discriminate.
Defined.

(** ** Keys that are not strings *)

Lemma strings_raises (items : list value) (k : scalar) :
  In (VScalar k) items -> (forall s, k <> SStr s) -> Py.strings items = Raise TypeError.
Proof.
  intros Hin Hk. induction items as [|x items IH]; [contradiction|].
  destruct x as [a| |]; try reflexivity.
  destruct a as [| | | |s]; try reflexivity.
  destruct Hin as [[= <-]|Hin]; [now contradiction (Hk s)|].
  cbn [Py.strings]. now rewrite (IH Hin).
Qed.

(** X4.  On a mapping with the metadata key, a failing key that is not a string
    (an integer key of a YAML mapping, say) cannot be joined into the
    message: [check_file] raises [TypeError] and returns no verdict. *)
Theorem failing_key_that_is_not_a_string :
  forall w filename text d re k,
    read_text w filename = Return text ->
    loader_func w filename text = Return (VDict d) ->
    In (SStr "sops") (map fst d) ->
    load_encrypted_regex w = Filter re ->
    In k (failing_keys d re) ->
    (forall s, k <> SStr s) ->
    check_file w filename = Raise TypeError.
Proof.
  intros w filename text d re k Hread Hload Hsops Hre Hin Hk.
  rewrite (check_file_loaded _ _ _ _ Hread Hload), check_doc_dict.
  apply has_key_iff in Hsops. rewrite Hsops, Hre.
  destruct (failing_keys d re) as [|k0 ks] eqn:E; [contradiction|].
  cbn [is_empty]. unfold Py.join.
  rewrite (strings_raises (map VScalar (k0 :: ks)) k); [reflexivity | | exact Hk].
  now apply in_map.
Qed.

Lemma failing_key_that_is_not_a_string_example :
  check_file (Scenario.repo None) "ports.yaml" = Raise TypeError.
Proof.
  apply (failing_key_that_is_not_a_string (Scenario.repo None) "ports.yaml"
           Scenario.text_ports
           [(SStr "sops", VDict []); (SInt 8080, VStr "plaintext")] [] (SInt 8080));
    try reflexivity.
  - simpl; auto.
  - simpl; auto.
  - discriminate.
Defined.

Lemma listed_keys_are_strings (d : list (scalar * value)) (re : list string) :
  re <> [] -> exists names, failing_keys d re = map SStr names.
Proof.
  intros Hre. unfold failing_keys.
  induction (map fst d) as [|k ks [names IH]]; [now exists []|].
  cbn [filter]. destruct (failing d re k) eqn:E; [|now exists names].
  unfold failing in E. apply andb_true_iff in E. destruct E as [Hsel _].
  apply (selected_iff_listed re k Hre) in Hsel. destruct Hsel as [_ [p [_ ->]]].
  exists (p :: names). cbn [map]. now rewrite IH.
Qed.

(** X5.  With a pattern list that is not empty, [check_file] returns a verdict
    for every mapping: only keys equal to a pattern can fail, they are
    strings, and the message can always be built. *)
Theorem filtered_mapping_gets_a_verdict :
  forall w filename text d re,
    read_text w filename = Return text ->
    loader_func w filename text = Return (VDict d) ->
    load_encrypted_regex w = Filter re ->
    re <> [] ->
    exists v, check_file w filename = Return v.
Proof.
  intros w filename text d re Hread Hload Hre Hne.
  rewrite (check_file_loaded _ _ _ _ Hread Hload), check_doc_dict, Hre.
  destruct (existsb _ d); [|eexists; reflexivity].
  destruct (listed_keys_are_strings d re Hne) as [names ->].
  unfold Py.join. rewrite strings_of_names.
  destruct names; eexists; reflexivity.
Qed.

Lemma filtered_mapping_gets_a_verdict_example :
  exists v, check_file (Scenario.repo (Some Scenario.config_data)) "ports.yaml" = Return v.
Proof.
  apply (filtered_mapping_gets_a_verdict (Scenario.repo (Some Scenario.config_data))
           "ports.yaml" Scenario.text_ports
           [(SStr "sops", VDict []); (SInt 8080, VStr "plaintext")] ["data"]);
    try reflexivity.
  discriminate.
Defined.

(** ** What a true verdict guarantees *)

(** X6.  [check_file] returns a true verdict only with the message
    [Valid encryption], and only when the file was read and loaded, the loaded
    value passed the metadata test, the configuration block left a pattern
    list, and the loop ended with no invalid key. *)
Theorem true_verdict_requirements :
  forall w filename message,
    check_file w filename = Return (true, message) ->
    message = filename ++ ": Valid encryption"
    /\ exists text doc re ks,
         read_text w filename = Return text
         /\ loader_func w filename text = Return doc
         /\ Py.contains_str doc "sops" = Return true
         /\ load_encrypted_regex w = Filter re
         /\ Py.iter doc = Return ks
         /\ scan doc re ks [] = Return [].
Proof.
  intros w filename message H. unfold check_file in H.
  destruct (read_text w filename) as [text|e] eqn:Hread; [|discriminate H].
  cbn [bind] in H.
  destruct (loader_func w filename text) as [doc|e] eqn:Hload.
  - unfold check_doc in H.
    destruct (Py.contains_str doc "sops") as [[|]|e] eqn:Hsops;
      cbn [bind negb] in H; try discriminate H.
    unfold check_keys in H.
    destruct (load_encrypted_regex w) as [|re] eqn:Hre; [discriminate H|].
    destruct (Py.iter doc) as [ks|e] eqn:Hiter; [|discriminate H].
    cbn [bind] in H.
    destruct (scan doc re ks []) as [[|k invalid]|e] eqn:Hscan;
      cbn [bind is_empty negb] in H.
    + injection H as <-. split; [reflexivity|].
      exists text, doc, re, ks. repeat split; assumption.
    + destruct (Py.join "," (k :: invalid)); discriminate H.
    + discriminate H.
  - destruct e; discriminate H.
Qed.

Lemma true_verdict_requirements_example :
  "a.json: Valid encryption" = "a.json" ++ ": Valid encryption"
  /\ exists text doc re ks,
       read_text (Scenario.repo None) "a.json" = Return text
       /\ loader_func (Scenario.repo None) "a.json" text = Return doc
       /\ Py.contains_str doc "sops" = Return true
       /\ load_encrypted_regex (Scenario.repo None) = Filter re
       /\ Py.iter doc = Return ks
       /\ scan doc re ks [] = Return [].
Proof.
  apply (true_verdict_requirements (Scenario.repo None) "a.json"
           "a.json: Valid encryption").
  reflexivity.
Defined.

(** ** [main] *)

Lemma check_all_returns (w : World) (filenames : list string) :
  forall acc out,
    check_all w filenames acc = Return out ->
    exists verdicts,
      Forall2 (fun f v => check_file w f = Return v) filenames verdicts
      /\ out = (acc ++ failures verdicts)%list.
Proof.
  induction filenames as [|f fs IH]; intros acc out H; cbn [check_all] in H.
  - injection H as <-. exists []. split; [constructor | now rewrite app_nil_r].
  - destruct (check_file w f) as [[valid message]|e] eqn:Hf; [|discriminate H].
    cbn [bind] in H. destruct valid; cbn [negb] in H.
    + destruct (IH _ _ H) as [vs [Hvs ->]].
      exists ((true, message) :: vs). split; [now constructor | reflexivity].
    + destruct (IH _ _ H) as [vs [Hvs ->]].
      exists ((false, message) :: vs). split; [now constructor|].
      unfold failures. cbn [filter fst negb map snd]. now rewrite <- app_assoc.
Qed.

Lemma all_true_verdicts (w : World) (filenames : list string) (verdicts : list verdict) :
  Forall2 (fun f v => check_file w f = Return v) filenames verdicts ->
  forallb fst verdicts = true ->
  Forall (fun f => exists message, check_file w f = Return (true, message)) filenames.
Proof.
  induction 1 as [|f [valid message] fs vs Hf _ IH]; intros Hall; constructor.
  - cbn [forallb fst] in Hall. apply andb_true_iff in Hall.
    destruct Hall as [-> _]. now exists message.
  - apply IH. cbn [forallb] in Hall. now apply andb_true_iff in Hall.
Qed.

Lemma true_verdicts_exist (w : World) (filenames : list string) :
  Forall (fun f => exists message, check_file w f = Return (true, message)) filenames ->
  exists verdicts,
    Forall2 (fun f v => check_file w f = Return v) filenames verdicts
    /\ failures verdicts = [].
Proof.
  induction 1 as [|f fs [message Hf] _ [vs [Hvs Hnone]]].
  - exists []. split; [constructor | reflexivity].
  - exists ((true, message) :: vs). split; [now constructor | exact Hnone].
Qed.

(** X7.  [main] returns 0 exactly when the list of file names is not empty and
    [check_file] returns a true verdict for every one of them; it has then
    printed nothing.  A false verdict or an exception on any file rules the
    code 0 out. *)
Theorem main_returns_zero_iff :
  forall w filenames out,
    main w filenames = Return (out, 0%Z)
    <-> filenames <> [] /\ out = ""
        /\ Forall (fun f => exists message, check_file w f = Return (true, message))
             filenames.
Proof.
  intros w filenames out. split.
  - intros H. unfold main in H. destruct filenames as [|f fs]; [discriminate H|].
    destruct (check_all w (f :: fs) []) as [failed|e] eqn:Hall; [|discriminate H].
    cbn [bind] in H. destruct failed as [|m failed]; cbn [is_empty negb] in H;
      [|discriminate H].
    injection H as <-. split; [discriminate|]. split; [reflexivity|].
    destruct (check_all_returns _ _ _ _ Hall) as [vs [Hvs Hnone]].
    apply (all_true_verdicts w (f :: fs) vs Hvs).
    rewrite <- failures_empty. cbn [app] in Hnone. now rewrite <- Hnone.
  - intros [Hne [-> Hall]]. destruct filenames as [|f fs]; [contradiction|].
    destruct (true_verdicts_exist _ _ Hall) as [vs [Hvs Hnone]].
    unfold main. rewrite (check_all_verdicts _ _ _ Hvs). cbn [bind app].
    now rewrite Hnone.
Qed.

Lemma string_app_assoc (a b c : string) : (a ++ b) ++ c = a ++ (b ++ c).
Proof.
  induction a as [|x a IH]; [reflexivity|]. cbn [append]. now rewrite IH.
Qed.

Lemma string_app_nil_r (a : string) : a ++ "" = a.
Proof.
  induction a as [|x a IH]; [reflexivity|]. cbn [append]. now rewrite IH.
Qed.

Lemma concat_app (sep : string) (a b : list string) :
  a <> [] -> b <> [] ->
  String.concat sep (a ++ b) = String.concat sep a ++ sep ++ String.concat sep b.
Proof.
  intros Ha Hb. induction a as [|x a IH]; [contradiction|].
  destruct a as [|y a].
  - destruct b as [|z b]; [contradiction | reflexivity].
  - change (String.concat sep ((x :: y :: a) ++ b))
      with (x ++ sep ++ String.concat sep ((y :: a) ++ b)).
    rewrite IH by discriminate.
    change (String.concat sep (x :: y :: a))
      with (x ++ sep ++ String.concat sep (y :: a)).
    now rewrite !string_app_assoc.
Qed.

Lemma printed_app (a b : list string) :
  printed (a ++ b) = printed a ++ printed b.
Proof.
  destruct a as [|x a]; [reflexivity|].
  destruct b as [|y b].
  - rewrite app_nil_r. cbn [printed]. now rewrite string_app_nil_r.
  - change (printed ((x :: a) ++ y :: b))
      with (String.concat Str.newline ((x :: a) ++ y :: b) ++ Str.newline).
    rewrite concat_app by discriminate. cbn [printed].
    now rewrite !string_app_assoc.
Qed.

Lemma failures_app (a b : list verdict) :
  failures (a ++ b) = (failures a ++ failures b)%list.
Proof. unfold failures. now rewrite filter_app, map_app. Qed.

(** X8.  Running [main] on two lists of files, both with a result, and running
    it once on their concatenation give the same output and status: the
    outputs follow each other and the code is the larger of the two. *)
Theorem main_of_two_batches :
  forall w fs1 fs2 out1 code1 out2 code2,
    main w fs1 = Return (out1, code1) ->
    main w fs2 = Return (out2, code2) ->
    main w (fs1 ++ fs2) = Return (out1 ++ out2, Z.max code1 code2).
Proof.
  intros w fs1 fs2 out1 code1 out2 code2 H1 H2.
  unfold main in H1, H2.
  destruct fs1 as [|f1 fs1]; [discriminate H1|].
  destruct fs2 as [|f2 fs2]; [discriminate H2|].
  destruct (check_all w (f1 :: fs1) []) as [failed1|e] eqn:E1; [|discriminate H1].
  destruct (check_all w (f2 :: fs2) []) as [failed2|e] eqn:E2; [|discriminate H2].
  cbn [bind] in H1, H2.
  destruct (check_all_returns _ _ _ _ E1) as [vs1 [Hvs1 ->]].
  destruct (check_all_returns _ _ _ _ E2) as [vs2 [Hvs2 ->]].
  cbn [app] in H1, H2.
  assert (Hall : Forall2 (fun f v => check_file w f = Return v)
                   ((f1 :: fs1) ++ f2 :: fs2) (vs1 ++ vs2))
    by now apply Forall2_app.
  unfold main. change ((f1 :: fs1) ++ f2 :: fs2)%list
    with (f1 :: (fs1 ++ f2 :: fs2))%list in *.
  rewrite (check_all_verdicts _ _ _ Hall). cbn [bind app].
  rewrite failures_app.
  destruct (failures vs1) as [|m1 l1]; destruct (failures vs2) as [|m2 l2];
    cbn [is_empty negb] in H1, H2; injection H1 as <- <-; injection H2 as <- <-.
  - reflexivity.
  - reflexivity.
  - rewrite app_nil_r. cbn [is_empty negb]. now rewrite string_app_nil_r.
  - change (is_empty ((m1 :: l1) ++ m2 :: l2)) with false. cbn [negb].
    f_equal. f_equal.
    change (String.concat Str.newline ((m1 :: l1) ++ m2 :: l2) ++ Str.newline)
      with (printed ((m1 :: l1) ++ m2 :: l2)).
    now rewrite printed_app.
Qed.

Lemma main_of_two_batches_example :
  main (Scenario.repo None) ["a.json"; "b.json"; "c.json"]
  = Return
      ("" ++ printed
         ["b.json: sops metadata key not found in file, is not properly encrypted";
          "c.json: Unencrypted values found nested under keys: a"],
       Z.max 0 1).
Proof.
  apply (main_of_two_batches (Scenario.repo None) ["a.json"] ["b.json"; "c.json"]);
    reflexivity.
Defined.

(** ** The patterns the configuration can give *)

Lemma mem_cons (c x : ascii) (s : string) :
  Str.mem c (String x s) = Ascii.eqb c x || Str.mem c s.
Proof. reflexivity. Qed.

Lemma split_parts_without_separator (sep : ascii) (s : string) :
  Forall (fun p => Str.mem sep p = false) (Str.split sep s).
Proof.
  induction s as [|c s IH]; [repeat constructor|].
  rewrite split_cons. destruct (Ascii.eqb c sep) eqn:E.
  - constructor; [reflexivity | exact IH].
  - destruct (Str.split sep s) as [|h t]; [repeat constructor|].
    + rewrite mem_cons, Ascii.eqb_sym, E. reflexivity.
    + inversion IH as [|h' t' Hh Ht]; subst. constructor; [|exact Ht].
      now rewrite mem_cons, Ascii.eqb_sym, E, Hh.
Qed.

(** X9.  No pattern that the loader takes from the configuration contains the
    pipe.  So, once a configuration gives a pattern list, a top-level key
    whose name contains a pipe is never selected: whatever is stored under it
    is not checked. *)
Theorem key_with_a_pipe_is_never_selected :
  forall config re,
    encrypted_regex_of config = Return re ->
    Forall (fun p => has_bar p = false) re
    /\ forall k, has_bar k = true -> selected re (VStr k) = false.
Proof.
  intros config re Hre.
  assert (Hbars : Forall (fun p => has_bar p = false) re).
  { revert Hre. unfold encrypted_regex_of.
    destruct (Py.getitem config (VStr "creation_rules")) as [rules|]; [|discriminate].
    cbn [bind].
    destruct (Py.getitem rules (VInt 0)) as [rule|]; [|discriminate]. cbn [bind].
    destruct (Py.getitem rule (VStr "encrypted_regex")) as [regex|]; [|discriminate].
    cbn [bind].
    destruct (Py.strip regex "'$^()") as [stripped|]; [|discriminate]. cbn [bind].
    intros [= <-]. apply split_parts_without_separator. }
  split; [exact Hbars|].
  intros k Hk. unfold selected.
  assert (Hnone : existsb (Py.eq_str (VStr k)) re = false).
  { destruct (existsb (Py.eq_str (VStr k)) re) eqn:E; [|reflexivity].
    apply existsb_exists in E. destruct E as [p [Hin Hp]].
    unfold VStr, Py.eq_str in Hp. apply String.eqb_eq in Hp. subst p.
    rewrite Forall_forall in Hbars. rewrite (Hbars k Hin) in Hk. discriminate Hk. }
  rewrite Hnone. pose proof (encrypted_regex_not_empty config re Hre) as Hne.
  destruct re; [contradiction|]. cbn [is_empty orb]. apply andb_false_r.
Qed.

Lemma key_with_a_pipe_is_never_selected_example :
  Forall (fun p => has_bar p = false) ["data"; "stringData"]
  /\ forall k, has_bar k = true -> selected ["data"; "stringData"] (VStr k) = false.
Proof.
  apply (key_with_a_pipe_is_never_selected (config_value (VStr "^(data|stringData)$"))).
  reflexivity.
Defined.

(** ** The choice of the loader *)

Lemma endswith_suffix (base suffix : string) :
  Str.endswith (base ++ suffix) suffix = true.
Proof.
  induction base as [|c base IH].
  - destruct suffix; cbn [append Str.endswith]; now rewrite String.eqb_refl.
  - cbn [append Str.endswith]. rewrite IH. apply orb_true_r.
Qed.

Lemma loader_of_yaml_name (w : World) (base : string) :
  loader_func w (base ++ ".yaml") = yaml_load w.
Proof. unfold loader_func. now rewrite endswith_suffix. Qed.

(** X10.  For a file whose name ends in [.yaml], when the YAML loader raises on
    its text: a [ParserError] becomes the false verdict
    [Not valid JSON or YAML], before the metadata test and the configuration;
    every other exception of the loader (the scanner's, say) leaves
    [check_file] as it is. *)
Theorem yaml_loader_error :
  forall w base text e,
    read_text w (base ++ ".yaml") = Return text ->
    yaml_load w text = Raise e ->
    check_file w (base ++ ".yaml")
    = match e with
      | ParserError =>
          Return (false,
                  (base ++ ".yaml") ++ ": Not valid JSON or YAML, is not properly encrypted")
      | _ => Raise e
      end.
Proof.
  intros w base text e Hread Hload. unfold check_file.
  rewrite Hread. cbn [bind]. rewrite loader_of_yaml_name, Hload.
  destruct e; reflexivity.
Qed.

Lemma yaml_loader_error_examples :
  check_file
    (scenario [("broken.yaml", Scenario.config_unclosed)] [] Scenario.yaml_answers)
    "broken.yaml"
  = Return (false, "broken.yaml: Not valid JSON or YAML, is not properly encrypted")
  /\ check_file
       (scenario [("quote.yaml", Scenario.config_open_quote)] [] Scenario.yaml_answers)
       "quote.yaml"
     = Raise ScannerError.
Proof.
  split.
  - apply (yaml_loader_error
             (scenario [("broken.yaml", Scenario.config_unclosed)] []
                Scenario.yaml_answers)
             "broken" Scenario.config_unclosed ParserError);
      reflexivity.
  - apply (yaml_loader_error
             (scenario [("quote.yaml", Scenario.config_open_quote)] []
                Scenario.yaml_answers)
             "quote" Scenario.config_open_quote ScannerError);
      reflexivity.
Defined.
